(** * Task-ingestion pipeline: HTTP trigger and SQL change consumer

    A shallow embedding of [HttpTrigger/__init__.py] and
    [SqlTriggerBinding/__init__.py].  Python values decoded from JSON are an
    inductive type, exceptions are data, and the handlers run in a small
    monad that threads the state of the outside world (the database
    server, the clock), collects the observable events (log lines, driver
    calls, sleeps, configuration reads) and propagates raised exceptions.

    Conventions of the model:
    - a [str] is a [string] of 8-bit characters, so [\d] is [0-9];
    - [int] is unbounded ([Z]) and [int(s)] has no limit on the number of
      digits; a [float] is a binary64 [spec_float];
    - every exception is an [Exception]; interrupts and running out of
      memory are outside the model, and [logging] never raises;
    - what the repository calls and does not define (the JSON decoder,
      [repr], the [pymssql] driver, [time.sleep]) is a [platform] the
      handlers are parameterized by. *)

From Stdlib Require Import ZArith String Ascii List Lia DecimalString SpecFloat.
From Stdlib Require QArith.
From stdpp Require Import base strings gmap list.


(** ** Python values and exceptions *)

#[local] Set Warnings "-register-all".

(** The objects [json.loads] can produce.  A [dict] keeps its insertion
    order, which is what iteration over it observes. *)
Inductive pyval : Type :=
| PNone
| PBool (b : bool)
| PInt (z : Z)
| PFloat (f : spec_float)
| PStr (s : string)
| PList (items : list pyval)
| PDict (kvs : list (string * pyval)).

(** A raised exception: its class name and what [str(e)] gives.  Every
    exception of the model derives from [Exception], so [except:] and
    [except Exception] catch the same things. *)
Record exn : Type := Exn { exn_class : string; exn_str : string }.

(** Truth value of an object in a condition ([if x:], [not x]). *)
Definition truthy (v : pyval) : bool :=
  match v with
  | PNone => false
  | PBool b => b
  | PInt z => negb (z =? 0)%Z
  | PFloat f => match f with S754_zero _ => false | _ => true end
  | PStr s => negb (String.eqb s "")
  | PList items => match items with [] => false | _ => true end
  | PDict kvs => match kvs with [] => false | _ => true end
  end.

Definition type_name (v : pyval) : string :=
  match v with
  | PNone => "NoneType"
  | PBool _ => "bool"
  | PInt _ => "int"
  | PFloat _ => "float"
  | PStr _ => "str"
  | PList _ => "list"
  | PDict _ => "dict"
  end.

Definition AttributeError (v : pyval) (attr : string) : exn :=
  Exn "AttributeError"
      ("'" +:+ type_name v +:+ "' object has no attribute '" +:+ attr +:+ "'").

Definition TypeError_not_iterable (v : pyval) : exn :=
  Exn "TypeError" ("'" +:+ type_name v +:+ "' object is not iterable").

Definition KeyError (key : string) : exn :=
  Exn "KeyError" ("'" +:+ key +:+ "'").

(** [d.get(key)] on the association list of a dict: [None] when absent. *)
Fixpoint dict_get (kvs : list (string * pyval)) (key : string) : pyval :=
  match kvs with
  | [] => PNone
  | (k, v) :: rest => if String.eqb k key then v else dict_get rest key
  end.

(** [v.get(key)]: only a dict has the method. *)
Definition py_get (v : pyval) (key : string) : exn + pyval :=
  match v with
  | PDict kvs => inr (dict_get kvs key)
  | _ => inl (AttributeError v "get")
  end.

Fixpoint chars_of (s : string) : list pyval :=
  match s with
  | EmptyString => []
  | String c s' => PStr (String c EmptyString) :: chars_of s'
  end.

(** What [for item in v] iterates over. *)
Definition py_iter (v : pyval) : exn + list pyval :=
  match v with
  | PList items => inr items
  | PDict kvs => inr (map (fun kv => PStr (fst kv)) kvs)
  | PStr s => inr (chars_of s)
  | _ => inl (TypeError_not_iterable v)
  end.

(** [str(n)] for a non-negative int. *)
Definition str_of_nat (n : nat) : string :=
  NilZero.string_of_uint (Nat.to_uint n).

(** ** Regular expressions

    The subset of [re] the connection-string patterns use: a sequence of
    literals and capturing groups [(C+)] over a character class, matched
    greedily with backtracking; [re.search] takes the leftmost match. *)

Inductive re_item : Type :=
| Lit (s : string)
| GroupPlus (cls : ascii -> bool).

Fixpoint strip_prefix (p s : string) : option string :=
  match p, s with
  | EmptyString, _ => Some s
  | String a p', String b s' => if Ascii.eqb a b then strip_prefix p' s' else None
  | String _ _, EmptyString => None
  end.

(** [(C+)] followed by the rest of the pattern [k]: take one more
    character of the class while that leads to a match, else stop here. *)
Fixpoint re_plus (cls : ascii -> bool) (k : string -> option (list string))
    (s : string) (acc : string) : option (list string) :=
  match s with
  | EmptyString => None
  | String c s' =>
      if cls c then
        let acc' := acc +:+ String c EmptyString in
        match re_plus cls k s' acc' with
        | Some groups => Some groups
        | None => option_map (cons acc') (k s')
        end
      else None
  end.

Fixpoint re_match (items : list re_item) (s : string) : option (list string) :=
  match items with
  | [] => Some []
  | Lit l :: rest =>
      match strip_prefix l s with
      | Some s' => re_match rest s'
      | None => None
      end
  | GroupPlus cls :: rest => re_plus cls (re_match rest) s EmptyString
  end.

Fixpoint re_search (items : list re_item) (s : string) : option (list string) :=
  match re_match items s with
  | Some groups => Some groups
  | None =>
      match s with
      | EmptyString => None
      | String _ s' => re_search items s'
      end
  end.

(** [m.group(i)] for [i >= 1]. *)
Definition group (m : list string) (i : nat) : string := nth (i - 1)%nat m "".

Definition is_digit (c : ascii) : bool :=
  let n := nat_of_ascii c in ((48 <=? n) && (n <=? 57))%nat.

Definition not_char (x : ascii) (c : ascii) : bool := negb (Ascii.eqb c x).

(** Every character of [s] is in the class. *)
Fixpoint all_in (cls : ascii -> bool) (s : string) : bool :=
  match s with
  | EmptyString => true
  | String c s' => cls c && all_in cls s'
  end.

(** [int(s)] on a string: a [ValueError] unless [s] is a non-empty run of
    decimal digits (signs, blanks and underscores do not occur in what the
    pattern [\d+] captures). *)
Fixpoint digits_value (s : string) (acc : Z) : option Z :=
  match s with
  | EmptyString => Some acc
  | String c s' =>
      if is_digit c
      then digits_value s' (10 * acc + Z.of_nat (nat_of_ascii c - 48)%nat)%Z
      else None
  end.

Definition py_int (s : string) : exn + Z :=
  match s with
  | EmptyString => inl (Exn "ValueError" "invalid literal for int() with base 10: ''")
  | _ =>
      match digits_value s 0 with
      | Some z => inr z
      | None => inl (Exn "ValueError" ("invalid literal for int() with base 10: '" +:+ s +:+ "'"))
      end
  end.

(** ** Floating point

    Python floats are IEEE 754 binary64 values. *)

Definition prec : Z := 53.
Definition emax : Z := 1024.

Definition float_of_Z (z : Z) : spec_float := binary_normalize prec emax z 0 false.
Definition float_mul (x y : spec_float) : spec_float := SFmul prec emax x y.

(** The float [m * 2^e], when it is exact. *)
Definition float_lit (m e : Z) : spec_float := binary_normalize prec emax m e false.

(** The rational a finite float stands for, in lowest terms. *)
Definition float_value (f : spec_float) : option QArith_base.Q :=
  match f with
  | S754_zero _ => Some (QArith_base.Qmake 0 1)
  | S754_finite s m e =>
      let n := if s then Z.neg m else Z.pos m in
      Some (Qreduction.Qred
              (match e with
               | Z0 => QArith_base.Qmake n 1
               | Z.pos p => QArith_base.Qmake (n * 2 ^ Z.pos p) 1
               | Z.neg p => QArith_base.Qmake n (2 ^ p)
               end))
  | _ => None
  end.

(** ** Events, results and the handler monad *)

Inductive level : Type := INFO | WARNING | ERROR.

(** Handles of driver objects. *)
Definition connection : Type := nat.
Definition cursor : Type := nat.

(** Keyword arguments of [pymssql.connect]. *)
Record connect_args : Type := ConnectArgs {
  arg_server : string;
  arg_port : Z;
  arg_user : string;
  arg_password : string;
  arg_database : string;
  arg_timeout : Z;
  arg_login_timeout : Z
}.

(** What a run does to the outside, in order. *)
Inductive event : Type :=
| EvLog (lvl : level) (msg : string)
| EvEnviron (key : string)
| EvConnect (args : connect_args) (r : exn + connection)
| EvCursor (c : connection) (r : exn + cursor)
| EvExecute (k : cursor) (sql : string) (param : pyval) (r : option exn)
| EvCommit (c : connection) (r : option exn)
| EvClose (c : connection) (r : option exn)
| EvSleep (secs : spec_float).

Inductive result (A : Type) : Type :=
| Ok (a : A)
| Raise (e : exn).
Arguments Ok {A} a.
Arguments Raise {A} e.

(** A computation from a world [W]: its result, the world it leaves and
    the events it produced. *)
Definition M (W : Type) (A : Type) : Type := W -> result A * W * list event.

#[global] Instance M_ret {W} : MRet (M W) :=
  fun A a w => (Ok a, w, []).

#[global] Instance M_bind {W} : MBind (M W) :=
  fun A B k m w =>
    match m w with
    | (Ok a, w1, evs1) =>
        match k a w1 with
        | (r, w2, evs2) => (r, w2, evs1 ++ evs2)
        end
    | (Raise e, w1, evs1) => (Raise e, w1, evs1)
    end.

Definition raise {W A} (e : exn) : M W A := fun w => (Raise e, w, []).

Definition lift {W A} (r : exn + A) : M W A :=
  match r with
  | inl e => raise e
  | inr a => mret a
  end.

(** [try: body except ... as e: handler e]. *)
Definition try_except {W A} (body : M W A) (handler : exn -> M W A) : M W A :=
  fun w =>
    match body w with
    | (Ok a, w1, evs1) => (Ok a, w1, evs1)
    | (Raise e, w1, evs1) =>
        match handler e w1 with
        | (r, w2, evs2) => (r, w2, evs1 ++ evs2)
        end
    end.

Definition emit {W} (ev : event) : M W unit := fun w => (Ok tt, w, [ev]).

Definition logging_info {W} (msg : string) : M W unit := emit (EvLog INFO msg).
Definition logging_warning {W} (msg : string) : M W unit := emit (EvLog WARNING msg).
Definition logging_error {W} (msg : string) : M W unit := emit (EvLog ERROR msg).

(** ** The platform

    What the handlers call and the repository does not define: the JSON
    decoder, [repr] of a value, the [pymssql] driver talking to a server in
    state [W], and the clock. *)
Record platform (W : Type) : Type := Platform {
  json_loads : string -> exn + pyval;
  py_repr : pyval -> string;
  db_connect : connect_args -> W -> (exn + connection) * W;
  db_cursor : connection -> W -> (exn + cursor) * W;
  db_execute : cursor -> string -> pyval -> W -> option exn * W;
  db_commit : connection -> W -> option exn * W;
  db_close : connection -> W -> option exn * W;
  clock_sleep : spec_float -> W -> W
}.
Arguments json_loads {W} _ _.
Arguments py_repr {W} _ _.
Arguments db_connect {W} _ _ _.
Arguments db_cursor {W} _ _ _.
Arguments db_execute {W} _ _ _ _ _.
Arguments db_commit {W} _ _ _.
Arguments db_close {W} _ _ _.
Arguments clock_sleep {W} _ _ _.

Definition of_status (r : option exn) : result unit :=
  match r with
  | Some e => Raise e
  | None => Ok tt
  end.

Definition of_sum {A} (r : exn + A) : result A :=
  match r with
  | inl e => Raise e
  | inr a => Ok a
  end.

Section Primitives.
Context {W : Type} (P : platform W).

(** [str(v)], as an f-string field formats it: a [str] is itself, every
    other decoded value prints as its [repr]. *)
Definition py_str (v : pyval) : string :=
  match v with
  | PStr s => s
  | _ => py_repr P v
  end.

Definition pymssql_connect (args : connect_args) : M W connection :=
  fun w => let (r, w') := db_connect P args w in (of_sum r, w', [EvConnect args r]).

Definition conn_cursor (c : connection) : M W cursor :=
  fun w => let (r, w') := db_cursor P c w in (of_sum r, w', [EvCursor c r]).

Definition cursor_execute (k : cursor) (sql : string) (param : pyval) : M W unit :=
  fun w => let (r, w') := db_execute P k sql param w in
           (of_status r, w', [EvExecute k sql param r]).

Definition conn_commit (c : connection) : M W unit :=
  fun w => let (r, w') := db_commit P c w in (of_status r, w', [EvCommit c r]).

Definition conn_close (c : connection) : M W unit :=
  fun w => let (r, w') := db_close P c w in (of_status r, w', [EvClose c r]).

Definition time_sleep (secs : spec_float) : M W unit :=
  fun w => (Ok tt, clock_sleep P secs w, [EvSleep secs]).
End Primitives.

(** ** Reading a trace *)

Definition as_connect (ev : event) : option (connect_args * (exn + connection)) :=
  match ev with EvConnect args r => Some (args, r) | _ => None end.

Definition as_sleep (ev : event) : option spec_float :=
  match ev with EvSleep d => Some d | _ => None end.

Definition as_environ (ev : event) : option string :=
  match ev with EvEnviron k => Some k | _ => None end.

Definition as_execute (ev : event) : option (string * pyval) :=
  match ev with EvExecute _ sql param _ => Some (sql, param) | _ => None end.

Definition as_log (ev : event) : option (level * string) :=
  match ev with EvLog l m => Some (l, m) | _ => None end.

(** Persistence attempts of a run: each starts with one [pymssql.connect]. *)
Definition attempts (evs : list event) : nat := length (omap as_connect evs).

Definition sleeps (evs : list event) : list spec_float := omap as_sleep evs.

Definition environ_reads (evs : list event) : list string := omap as_environ evs.

(** SQL texts handed to [cursor.execute], each with its bound parameter. *)
Definition executed (evs : list event) : list (string * pyval) := omap as_execute evs.

Definition log_lines (evs : list event) : list (level * string) := omap as_log evs.

(** Attempts and sleeps in the order they happen. *)
Inductive tick : Type :=
| Tried
| Slept (secs : spec_float).

Definition as_tick (ev : event) : option tick :=
  match ev with
  | EvConnect _ _ => Some Tried
  | EvSleep d => Some (Slept d)
  | _ => None
  end.

Definition timeline (evs : list event) : list tick := omap as_tick evs.

Definition tick_sleep (t : tick) : option spec_float :=
  match t with
  | Slept d => Some d
  | Tried => None
  end.

Definition as_close (ev : event) : option connection :=
  match ev with EvClose c _ => Some c | _ => None end.

(** Connections [close] was called on. *)
Definition closes (evs : list event) : list connection := omap as_close evs.

Fixpoint remove_connection (c : connection) (opened : list connection) : list connection :=
  match opened with
  | [] => []
  | c' :: rest => if (c' =? c)%nat then remove_connection c rest
                  else c' :: remove_connection c rest
  end.

(** Connections that were opened and not closed afterwards, oldest first.
    A [close] that was called counts as a release, whatever it reported. *)
Fixpoint open_connections (evs : list event) (opened : list connection) : list connection :=
  match evs with
  | [] => opened
  | EvConnect _ (inr c) :: rest => open_connections rest (opened ++ [c])
  | EvClose c _ :: rest => open_connections rest (remove_connection c opened)
  | _ :: rest => open_connections rest opened
  end.

(** ** A scripted platform

    A database server that counts the connections made so far and fails
    where a plan says so: connection [n] is the one attempt [n + 1] opens.
    The decoder is a finite table from request texts to decoded values. *)

Inductive fault : Type :=
| NoFault | FailConnect | FailCursor | FailExecute | FailCommit | FailClose.

Definition fault_eqb (a b : fault) : bool :=
  match a, b with
  | NoFault, NoFault | FailConnect, FailConnect | FailCursor, FailCursor
  | FailExecute, FailExecute | FailCommit, FailCommit | FailClose, FailClose => true
  | _, _ => false
  end.

Definition db_error (what : string) (n : nat) : exn :=
  Exn "OperationalError" (what +:+ " failed on connection " +:+ str_of_nat n).

Definition status_of (plan : nat -> fault) (f : fault) (what : string) (n : nat) : option exn :=
  if fault_eqb (plan n) f then Some (db_error what n) else None.

Definition handle_of (plan : nat -> fault) (f : fault) (what : string) (n : nat) : exn + nat :=
  if fault_eqb (plan n) f then inl (db_error what n) else inr n.

Fixpoint table_lookup (table : list (string * pyval)) (s : string) : exn + pyval :=
  match table with
  | [] => inl (Exn "JSONDecodeError" "Expecting value: line 1 column 1 (char 0)")
  | (k, v) :: rest => if String.eqb k s then inr v else table_lookup rest s
  end.

(** [repr] of the scalars; containers and floats print as an ellipsis. *)
Definition scalar_repr (v : pyval) : string :=
  match v with
  | PNone => "None"
  | PBool true => "True"
  | PBool false => "False"
  | PInt z => NilZero.string_of_int (Z.to_int z)
  | PStr s => "'" +:+ s +:+ "'"
  | _ => "..."
  end.

Definition scripted (plan : nat -> fault) (table : list (string * pyval)) : platform nat :=
  {| json_loads := table_lookup table;
     py_repr := scalar_repr;
     db_connect := fun _ n => (handle_of plan FailConnect "connect" n, S n);
     db_cursor := fun c n => (handle_of plan FailCursor "cursor" c, n);
     db_execute := fun k _ _ n => (status_of plan FailExecute "execute" k, n);
     db_commit := fun c n => (status_of plan FailCommit "commit" c, n);
     db_close := fun c n => (status_of plan FailClose "close" c, n);
     clock_sleep := fun _ n => n |}.

(** ** The HTTP trigger *)

Module HttpTrigger.

Record HttpRequest : Type := { req_body : string }.

Record HttpResponse : Type := { body : string; status_code : Z }.

(** [func.HttpResponse(body, status_code=...)]: the status is 200 when
    none is given. *)
Definition func_HttpResponse (b : string) (status : option Z) : HttpResponse :=
  {| body := b; status_code := default 200%Z status |}.

Definition max_retries : nat := 3.
Definition retry_delay : spec_float := float_lit 1 (-1).

Definition insert_sql : string := "INSERT INTO dbo.Tasks (Payload) VALUES (%s)".

(** The four patterns of lines 25-28. *)
Definition server_re : list re_item :=
  [Lit "Server=tcp:"; GroupPlus (not_char ","); Lit ","; GroupPlus is_digit].
Definition db_re : list re_item := [Lit "Initial Catalog="; GroupPlus (not_char ";")].
Definition user_re : list re_item := [Lit "User ID="; GroupPlus (not_char ";")].
Definition pwd_re : list re_item := [Lit "Password="; GroupPlus (not_char ";")].

Section Handler.
Context {W : Type} (P : platform W) (os_environ : gmap string string).

(** [req.get_json()]: the decoded body, or a [ValueError]. *)
Definition get_json (req : HttpRequest) : M W pyval :=
  match json_loads P (req_body req) with
  | inr v => mret v
  | inl _ => raise (Exn "ValueError" "HTTP request does not contain valid JSON data")
  end.

(** [os.environ[key]]. *)
Definition environ_getitem (key : string) : M W string :=
  fun w =>
    match os_environ !! key with
    | Some v => (Ok v, w, [EvEnviron key])
    | None => (Raise (KeyError key), w, [EvEnviron key])
    end.

(** Line 65: the delay after a failed attempt,
    [retry_delay * (attempt + 1)]. *)
Definition backoff (attempt : nat) : spec_float :=
  float_mul retry_delay (float_of_Z (Z.of_nat (attempt + 1))).

(** Lines 45-57: one persistence attempt. *)
Definition persist (args : connect_args) (task_text : pyval) : M W unit :=
  conn ← pymssql_connect P args;
  cur ← conn_cursor P conn;
  cursor_execute P cur insert_sql task_text;;
  conn_commit P conn;;
  conn_close P conn.

(** Lines 43-68: the body of the [for] loop returns a response or
    falls through to the next value of [attempt]; a loop that runs out
    of values leaves the function without a response. *)
Fixpoint retry_loop (args : connect_args) (task_text : pyval) (range : list nat)
  : M W (option HttpResponse) :=
  match range with
  | [] => mret None
  | attempt :: rest =>
      r ← try_except
            (persist args task_text;;
             logging_info ("Task inserted successfully (attempt "
                           +:+ str_of_nat (attempt + 1) +:+ ")");;
             mret (Some (func_HttpResponse ("Task added: " +:+ py_str P task_text) None)))
            (fun e =>
               logging_warning ("Database connection attempt "
                                +:+ str_of_nat (attempt + 1) +:+ " failed: " +:+ exn_str e);;
               if (attempt <? max_retries - 1)%nat then
                 time_sleep P (backoff attempt);;
                 mret None
               else
                 logging_error ("All " +:+ str_of_nat max_retries
                                +:+ " connection attempts failed");;
                 mret (Some (func_HttpResponse
                               ("Database connection failed after "
                                +:+ str_of_nat max_retries +:+ " attempts: " +:+ exn_str e)
                               (Some 503%Z))));
      match r with
      | Some resp => mret (Some resp)
      | None => retry_loop args task_text rest
      end
  end.

Definition main (req : HttpRequest) : M W (option HttpResponse) :=
  logging_info "HTTP trigger received a request.";;
  parsed ← try_except (req_body ← get_json req; mret (inr req_body))
                      (fun _ => mret (inl (func_HttpResponse "Invalid JSON" (Some 400%Z))));
  match parsed with
  | inl resp => mret (Some resp)
  | inr req_body =>
      task_text ← lift (py_get req_body "task");
      if negb (truthy task_text) then
        mret (Some (func_HttpResponse "Missing 'task'" (Some 400%Z)))
      else
        conn_str ← environ_getitem "SqlConnectionString";
        let server_match := re_search server_re conn_str in
        let db_match := re_search db_re conn_str in
        let user_match := re_search user_re conn_str in
        let pwd_match := re_search pwd_re conn_str in
        match server_match, db_match, user_match, pwd_match with
        | Some server_match, Some db_match, Some user_match, Some pwd_match =>
            let server := group server_match 1 in
            port ← lift (py_int (group server_match 2));
            let database := group db_match 1 in
            let user := group user_match 1 in
            let password := group pwd_match 1 in
            retry_loop {| arg_server := server; arg_port := port; arg_user := user;
                          arg_password := password; arg_database := database;
                          arg_timeout := 10; arg_login_timeout := 10 |}
                       task_text (seq 0 max_retries)
        | _, _, _, _ =>
            mret (Some (func_HttpResponse "Invalid connection string format" (Some 500%Z)))
        end
  end.

(** Lines 25-37 on their own: the keyword arguments the loop connects
    with, when all four patterns match. *)
Definition descriptor (conn_str : string) : option connect_args :=
  match re_search server_re conn_str, re_search db_re conn_str,
        re_search user_re conn_str, re_search pwd_re conn_str with
  | Some server_match, Some db_match, Some user_match, Some pwd_match =>
      match py_int (group server_match 2) with
      | inr port =>
          Some {| arg_server := group server_match 1; arg_port := port;
                  arg_user := group user_match 1;
                  arg_password := group pwd_match 1;
                  arg_database := group db_match 1;
                  arg_timeout := 10; arg_login_timeout := 10 |}
      | inl _ => None
      end
  | _, _, _, _ => None
  end.

(** The world in which the attempt with index [attempt + n] starts when
    the [n] attempts from index [attempt] on all raised, each followed
    by its backoff sleep; [None] when one of them succeeded. *)
Fixpoint after_failures (args : connect_args) (task_text : pyval)
    (attempt n : nat) (w : W) : option W :=
  match n with
  | 0 => Some w
  | S n' =>
      match persist args task_text w with
      | (Raise _, w1, _) =>
          after_failures args task_text (S attempt) n'
                         (clock_sleep P (backoff attempt) w1)
      | (Ok _, _, _) => None
      end
  end.

(** The task a request submits, when it passes lines 12-20: the body
    decodes to an object whose [task] is truthy. *)
Definition submitted_task (req : HttpRequest) : option pyval :=
  match json_loads P (req_body req) with
  | inr (PDict kvs) =>
      let task_text := dict_get kvs "task" in
      if truthy task_text then Some task_text else None
  | _ => None
  end.

(** The connection arguments the process configuration yields. *)
Definition configuration : option connect_args :=
  os_environ !! "SqlConnectionString" ≫= descriptor.

(** The schedule of a run whose first [k] attempts failed: each failed
    attempt is followed by its backoff sleep. *)
Definition failed_schedule (attempt k : nat) : list tick :=
  flat_map (fun j => [Tried; Slept (backoff j)]) (seq attempt k).

(** [i] half time units as a float, and the schedule of a run that
    makes [k + 1] attempts with a sleep of [i] half units after the
    [i]-th of them, for [i] up to [k]. *)
Definition half_units (i : nat) : spec_float := float_lit (Z.of_nat i) (-1).

Definition linear_schedule (k : nat) : list tick :=
  flat_map (fun i => [Tried; Slept (half_units i)]) (seq 1 k) ++ [Tried].

(** Log lines and responses, as the handler words them. *)
Definition entry_log : event := EvLog INFO "HTTP trigger received a request.".

Definition invalid_json_response : HttpResponse :=
  {| body := "Invalid JSON"; status_code := 400 |}.

Definition missing_task_response : HttpResponse :=
  {| body := "Missing 'task'"; status_code := 400 |}.

Definition invalid_config_response : HttpResponse :=
  {| body := "Invalid connection string format"; status_code := 500 |}.

Definition success_log (attempt : nat) : event :=
  EvLog INFO ("Task inserted successfully (attempt " +:+ str_of_nat (attempt + 1) +:+ ")").

Definition failure_log (attempt : nat) (e : exn) : event :=
  EvLog WARNING ("Database connection attempt " +:+ str_of_nat (attempt + 1)
                 +:+ " failed: " +:+ exn_str e).

Definition exhausted_log : event :=
  EvLog ERROR ("All " +:+ str_of_nat max_retries +:+ " connection attempts failed").

Definition ok_response (task : pyval) : HttpResponse :=
  {| body := "Task added: " +:+ py_str P task; status_code := 200 |}.

Definition unavailable_response (e : exn) : HttpResponse :=
  {| body := "Database connection failed after 3 attempts: " +:+ exn_str e;
     status_code := 503 |}.

End Handler.

End HttpTrigger.

(** ** The SQL change consumer *)

Module SqlTriggerBinding.

Section Handler.
Context {W : Type} (P : platform W).

(** The f-string of line 11: the three [item.get] calls run in order,
    then the fields are formatted. *)
Definition change_line (item : pyval) : M W string :=
  id ← lift (py_get item "Id");
  payload ← lift (py_get item "Payload");
  processed ← lift (py_get item "Processed");
  mret ("SQL Trigger fired: Id=" +:+ py_str P id +:+ ", Payload=" +:+ py_str P payload
        +:+ ", Processed=" +:+ py_str P processed).

(** Lines 10-11: [for item in changes_list: logging.info(...)]. *)
Fixpoint log_changes (items : list pyval) : M W unit :=
  match items with
  | [] => mret tt
  | item :: rest =>
      line ← change_line item;
      logging_info line;;
      log_changes rest
  end.

Definition main (changes : string) : M W unit :=
  logging_info "SQL Trigger fired.";;
  try_except
    (changes_list ← lift (json_loads P changes);
     if truthy changes_list then
       items ← lift (py_iter changes_list);
       log_changes items
     else
       logging_info "SQL Trigger fired but no changes detected.")
    (fun e =>
       logging_error ("Error parsing SQL trigger input: " +:+ exn_str e);;
       logging_error ("Raw content: " +:+ changes)).

(** Log lines of the handler. *)
Definition fired_log : event := EvLog INFO "SQL Trigger fired.".

Definition no_changes_log : event :=
  EvLog INFO "SQL Trigger fired but no changes detected.".

(** What the [except] branch logs: the error, then the raw input. *)
Definition error_logs (e : exn) (changes : string) : list event :=
  [EvLog ERROR ("Error parsing SQL trigger input: " +:+ exn_str e);
   EvLog ERROR ("Raw content: " +:+ changes)].

(** The line the handler logs for a record that is an object. *)
Definition record_line (kvs : list (string * pyval)) : string :=
  "SQL Trigger fired: Id=" +:+ py_str P (dict_get kvs "Id")
  +:+ ", Payload=" +:+ py_str P (dict_get kvs "Payload")
  +:+ ", Processed=" +:+ py_str P (dict_get kvs "Processed").
End Handler.

End SqlTriggerBinding.

(** ** Sample inputs

    A configuration, requests and change batches to run the handlers on,
    with the decoded values of the texts in a table. *)

Module Demo.

(** The double quote, and a JSON string literal without escapes. *)
Definition dq : string := String "034"%char EmptyString.

Definition quoted (s : string) : string := dq +:+ s +:+ dq.

Definition conn_str : string :=
  "Server=tcp:myhost.database.windows.net,1433;Initial Catalog=tasks;User ID=sa;Password=pw;Encrypt=True".

(** The same without [User ID]. *)
Definition conn_str_no_user : string :=
  "Server=tcp:myhost.database.windows.net,1433;Initial Catalog=tasks;Password=pw;Encrypt=True".

Definition environ : gmap string string := {[ "SqlConnectionString" := conn_str ]}.

Definition environ_no_user : gmap string string :=
  {[ "SqlConnectionString" := conn_str_no_user ]}.

Definition args : connect_args :=
  {| arg_server := "myhost.database.windows.net"; arg_port := 1433; arg_user := "sa";
     arg_password := "pw"; arg_database := "tasks";
     arg_timeout := 10; arg_login_timeout := 10 |}.

(** The body [{"task": "buy milk"}], the bodies [{"task": 0}], [[]] and
    [{}], and a batch of two change records. *)
Definition task_body : string :=
  "{" +:+ quoted "task" +:+ ": " +:+ quoted "buy milk" +:+ "}".

Definition zero_task_body : string := "{" +:+ quoted "task" +:+ ": 0}".

Definition number_task_body : string := "{" +:+ quoted "task" +:+ ": 42}".

Definition record (id : Z) (payload : string) : list (string * pyval) :=
  [("Id", PInt id); ("Payload", PStr payload); ("Processed", PBool false)].

Definition record_text (id payload : string) : string :=
  "{" +:+ quoted "Id" +:+ ": " +:+ id +:+ ", " +:+ quoted "Payload" +:+ ": "
  +:+ quoted payload +:+ ", " +:+ quoted "Processed" +:+ ": false}".

Definition batch_text : string :=
  "[" +:+ record_text "7" "buy milk" +:+ ", " +:+ record_text "8" "walk dog" +:+ "]".

Definition mixed_batch_text : string := "[" +:+ record_text "7" "buy milk" +:+ ", 5]".

Definition table : list (string * pyval) :=
  [(task_body, PDict [("task", PStr "buy milk")]);
   (zero_task_body, PDict [("task", PInt 0)]);
   (number_task_body, PDict [("task", PInt 42)]);
   ("[]", PList []);
   ("{}", PDict []);
   ("5", PInt 5);
   (batch_text, PList [PDict (record 7 "buy milk"); PDict (record 8 "walk dog")]);
   (mixed_batch_text, PList [PDict (record 7 "buy milk"); PInt 5])].

Definition request (text : string) : HttpTrigger.HttpRequest :=
  {| HttpTrigger.req_body := text |}.

(** Servers: one where every [execute] fails, one where every [commit]
    fails, one that refuses the first connection and fails the second
    commit, one where only the first attempt fails, and one without
    faults. *)
Definition execute_fails (n : nat) : fault := FailExecute.
Definition commit_fails (n : nat) : fault := FailCommit.
Definition third_time_lucky (n : nat) : fault :=
  match n with
  | 0 => FailConnect
  | 1 => FailCommit
  | _ => NoFault
  end.
Definition second_time_lucky (n : nat) : fault :=
  match n with
  | 0 => FailCursor
  | _ => NoFault
  end.
Definition healthy (n : nat) : fault := NoFault.

End Demo.

(** * Properties *)

(** ** Strings and patterns *)

Lemma append_snoc (a : string) (c : ascii) (b : string) :
  (a +:+ String c EmptyString) +:+ b = a +:+ String c b.
Proof.
  induction a as [|x a IH]; [reflexivity|].
  change (String x ((a +:+ String c EmptyString) +:+ b) = String x (a +:+ String c b)).
  now rewrite IH.
Qed.

(** What a capturing group holds: a non-empty run of the class, after
    which the rest of the pattern matched. *)
Lemma re_plus_groups cls k : forall s acc groups,
  re_plus cls k s acc = Some groups ->
  exists g gs s', groups = (acc +:+ g) :: gs /\ g <> EmptyString /\
                  all_in cls g = true /\ k s' = Some gs.
Proof.
  induction s as [|c s IH]; simpl; intros acc groups H; [discriminate|].
  destruct (cls c) eqn:Hc; [|discriminate].
  destruct (re_plus cls k s (acc +:+ String c EmptyString)) as [groups'|] eqn:Hrec.
  - injection H as <-.
    destruct (IH _ _ Hrec) as (g & gs & s' & -> & _ & Hall & Hk).
    exists (String c g), gs, s'. rewrite append_snoc. simpl. rewrite Hc, Hall.
    repeat split; [discriminate | assumption].
  - destruct (k s) as [gs|] eqn:Hk; [|discriminate]. injection H as <-.
    exists (String c EmptyString), gs, s. simpl. rewrite Hc.
    repeat split; [discriminate | assumption].
Qed.

Lemma re_match_lit l rest s :
  re_match (Lit l :: rest) s =
  match strip_prefix l s with
  | Some s' => re_match rest s'
  | None => None
  end.
Proof. reflexivity. Qed.

Lemma re_match_group cls rest s :
  re_match (GroupPlus cls :: rest) s = re_plus cls (re_match rest) s EmptyString.
Proof. reflexivity. Qed.

Lemma re_search_match items : forall s m,
  re_search items s = Some m -> exists s', re_match items s' = Some m.
Proof.
  induction s as [|c s IH]; intros m H; simpl in H.
  - destruct (re_match items EmptyString) eqn:E; [|discriminate].
    injection H as <-. eauto.
  - destruct (re_match items (String c s)) eqn:E.
    + injection H as <-. eauto.
    + eauto.
Qed.

Lemma digits_value_total : forall s acc,
  all_in is_digit s = true -> exists z, digits_value s acc = Some z.
Proof.
  induction s as [|c s IH]; simpl; intros acc H; [eauto|].
  apply andb_prop in H as [Hc Hs]. rewrite Hc. eauto.
Qed.

Lemma py_int_digits (s : string) :
  s <> EmptyString -> all_in is_digit s = true -> exists z, py_int s = inr z.
Proof.
  intros Hne Hall. destruct (digits_value_total s 0%Z Hall) as [z Hz].
  exists z. unfold py_int. destruct s; [congruence|]. now rewrite Hz.
Qed.

(** ** Reading traces piecewise *)

Lemma attempts_app (a b : list event) : attempts (a ++ b) = attempts a + attempts b.
Proof. unfold attempts. now rewrite omap_app, length_app. Qed.

Lemma timeline_app (a b : list event) : timeline (a ++ b) = timeline a ++ timeline b.
Proof. apply omap_app. Qed.

Lemma sleeps_app (a b : list event) : sleeps (a ++ b) = sleeps a ++ sleeps b.
Proof. apply omap_app. Qed.

Lemma executed_app (a b : list event) : executed (a ++ b) = executed a ++ executed b.
Proof. apply omap_app. Qed.

Lemma environ_reads_app (a b : list event) :
  environ_reads (a ++ b) = environ_reads a ++ environ_reads b.
Proof. apply omap_app. Qed.

Lemma log_lines_app (a b : list event) : log_lines (a ++ b) = log_lines a ++ log_lines b.
Proof. apply omap_app. Qed.

Lemma sleeps_timeline (evs : list event) : sleeps evs = omap tick_sleep (timeline evs).
Proof.
  unfold sleeps, timeline.
  induction evs as [|ev evs IH]; [reflexivity|].
  destruct ev; simpl; first [exact IH | f_equal; exact IH].
Qed.

(** ** The HTTP trigger *)

Module HttpTriggerFacts.
Import HttpTrigger.

Section Run.
Context {W : Type} (P : platform W) (os_environ : gmap string string).

(** One attempt connects once, never sleeps, reads no configuration,
    and hands the driver nothing but the constant statement with the
    task as its parameter. *)
Lemma persist_trace args task w r w' evs :
  persist P args task w = (r, w', evs) ->
  timeline evs = [Tried] /\ attempts evs = 1 /\ environ_reads evs = [] /\
  Forall (fun x => x = (insert_sql, task)) (executed evs).
Proof.
  unfold persist, mbind, M_bind, pymssql_connect, conn_cursor, cursor_execute,
    conn_commit, conn_close.
  destruct (db_connect P args w) as [[e|c] w1]; simpl.
  { intros [= <- <- <-]. repeat split; constructor. }
  destruct (db_cursor P c w1) as [[e|k] w2]; simpl.
  { intros [= <- <- <-]. repeat split; constructor. }
  destruct (db_execute P k insert_sql task w2) as [[e|] w3]; simpl.
  { intros [= <- <- <-]. repeat split; repeat constructor. }
  destruct (db_commit P c w3) as [[e|] w4]; simpl.
  { intros [= <- <- <-]. repeat split; repeat constructor. }
  destruct (db_close P c w4) as [[e|] w5]; simpl;
    intros [= <- <- <-]; repeat split; repeat constructor.
Qed.

(** The three ways one turn of the loop goes. *)
Lemma retry_loop_success args task attempt rest w w1 evs1 :
  persist P args task w = (Ok tt, w1, evs1) ->
  retry_loop P args task (attempt :: rest) w =
  (Ok (Some (ok_response P task)), w1, evs1 ++ [success_log attempt]).
Proof.
  intros H. simpl. unfold mbind at 1. unfold M_bind at 1. unfold try_except.
  unfold mbind at 1. unfold M_bind at 1. rewrite H. simpl.
  now rewrite app_nil_r.
Qed.

Lemma retry_loop_retry args task attempt rest w e w1 evs1 :
  persist P args task w = (Raise e, w1, evs1) ->
  attempt < max_retries - 1 ->
  retry_loop P args task (attempt :: rest) w =
  match retry_loop P args task rest (clock_sleep P (backoff attempt) w1) with
  | (r, w2, evs2) =>
      (r, w2, evs1 ++ [failure_log attempt e; EvSleep (backoff attempt)] ++ evs2)
  end.
Proof.
  intros H Hlt. apply Nat.ltb_lt in Hlt. simpl.
  unfold mbind at 1. unfold M_bind at 1. unfold try_except.
  unfold mbind at 1. unfold M_bind at 1. rewrite H. simpl.
  unfold max_retries in Hlt. simpl in Hlt. rewrite Hlt.
  unfold mbind, M_bind, logging_warning, emit, time_sleep. simpl.
  destruct (retry_loop P args task rest (clock_sleep P (backoff attempt) w1))
    as [[r w2] evs2].
  now rewrite <- app_assoc.
Qed.

Lemma retry_loop_exhausted args task attempt rest w e w1 evs1 :
  persist P args task w = (Raise e, w1, evs1) ->
  ~ attempt < max_retries - 1 ->
  retry_loop P args task (attempt :: rest) w =
  (Ok (Some (unavailable_response e)), w1,
   evs1 ++ [failure_log attempt e; exhausted_log]).
Proof.
  intros H Hge. apply Nat.ltb_nlt in Hge. simpl.
  unfold mbind at 1. unfold M_bind at 1. unfold try_except.
  unfold mbind at 1. unfold M_bind at 1. rewrite H. simpl.
  unfold max_retries in Hge. simpl in Hge. rewrite Hge.
  unfold mbind, M_bind, logging_warning, logging_error, emit. simpl.
  now rewrite app_nil_r.
Qed.

#[local] Arguments retry_loop : simpl never.

Lemma server_port_is_int cs m :
  re_search server_re cs = Some m -> exists port, py_int (group m 2) = inr port.
Proof.
  intros H. apply re_search_match in H as [s H].
  unfold server_re in H. rewrite re_match_lit in H.
  destruct (strip_prefix "Server=tcp:" s) as [s1|]; [|discriminate].
  rewrite re_match_group in H.
  apply re_plus_groups in H as (g1 & gs & s2 & -> & _ & _ & H).
  rewrite re_match_lit in H.
  destruct (strip_prefix "," s2) as [s3|]; [|discriminate].
  rewrite re_match_group in H.
  apply re_plus_groups in H as (g2 & gs' & s4 & -> & Hne & Hall & H).
  injection H as <-. unfold group. simpl.
  now apply py_int_digits.
Qed.

(** [main] in direct style: what it returns, the world it leaves and its
    events, by cases on what it meets on the way to the retry loop. *)
Lemma main_run req w :
  main P os_environ req w =
  match json_loads P (req_body req) with
  | inl _ => (Ok (Some (invalid_json_response)), w, [entry_log])
  | inr req_body =>
      match py_get req_body "task" with
      | inl e => (Raise e, w, [entry_log])
      | inr task_text =>
          if truthy task_text then
            match os_environ !! "SqlConnectionString" with
            | None => (Raise (KeyError "SqlConnectionString"), w,
                       [entry_log; EvEnviron "SqlConnectionString"])
            | Some conn_str =>
                match re_search server_re conn_str, re_search db_re conn_str,
                      re_search user_re conn_str, re_search pwd_re conn_str with
                | Some sm, Some dm, Some um, Some pm =>
                    match py_int (group sm 2) with
                    | inl e => (Raise e, w, [entry_log; EvEnviron "SqlConnectionString"])
                    | inr port =>
                        match retry_loop P
                                {| arg_server := group sm 1; arg_port := port;
                                   arg_user := group um 1; arg_password := group pm 1;
                                   arg_database := group dm 1;
                                   arg_timeout := 10; arg_login_timeout := 10 |}
                                task_text (seq 0 max_retries) w with
                        | (r, w', evs) =>
                            (r, w', [entry_log; EvEnviron "SqlConnectionString"] ++ evs)
                        end
                    end
                | _, _, _, _ =>
                    (Ok (Some invalid_config_response), w,
                     [entry_log; EvEnviron "SqlConnectionString"])
                end
            end
          else (Ok (Some missing_task_response), w, [entry_log])
      end
  end.
Proof.
  unfold main, mbind, M_bind, mret, M_ret, try_except, get_json, logging_info, emit,
    environ_getitem.
  destruct (json_loads P (req_body req)) as [e|v]; simpl; [reflexivity|].
  destruct (py_get v "task") as [e|task]; simpl; [reflexivity|].
  destruct (truthy task); simpl; [|reflexivity].
  destruct (os_environ !! "SqlConnectionString") as [cs|]; simpl; [|reflexivity].
  destruct (re_search server_re cs) as [sm|]; [|reflexivity].
  destruct (re_search db_re cs) as [dm|]; [|reflexivity].
  destruct (re_search user_re cs) as [um|]; [|reflexivity].
  destruct (re_search pwd_re cs) as [pm|]; [|reflexivity].
  destruct (py_int (group sm 2)) as [e|port]; simpl; [reflexivity|].
  match goal with |- context [retry_loop P ?a ?t ?r w] =>
    destruct (retry_loop P a t r w) as [[r' w'] evs] end.
  reflexivity.
Qed.

(** A request that passes validation, under a configuration that parses,
    enters the retry loop after the entry log line and the read of the
    connection string. *)
Lemma main_enters_loop req task d w :
  submitted_task P req = Some task ->
  configuration os_environ = Some d ->
  main P os_environ req w =
  match retry_loop P d task (seq 0 max_retries) w with
  | (r, w', evs) => (r, w', [entry_log; EvEnviron "SqlConnectionString"] ++ evs)
  end.
Proof.
  unfold submitted_task, configuration. intros Htask Hcfg. rewrite main_run.
  destruct (json_loads P (req_body req)) as [e|v]; [discriminate|].
  destruct v as [| | | | | |kvs]; try discriminate. simpl.
  destruct (truthy (dict_get kvs "task")); [|discriminate].
  injection Htask as <-.
  destruct (os_environ !! "SqlConnectionString") as [cs|]; [|discriminate].
  simpl in Hcfg. unfold descriptor in Hcfg.
  destruct (re_search server_re cs) as [sm|]; [|discriminate].
  destruct (re_search db_re cs) as [dm|]; [|discriminate].
  destruct (re_search user_re cs) as [um|]; [|discriminate].
  destruct (re_search pwd_re cs) as [pm|]; [|discriminate].
  destruct (py_int (group sm 2)) as [e|port]; [discriminate|].
  now injection Hcfg as <-.
Qed.

(** While attempts fail and more remain, the loop moves on to the next
    one, in the world [after_failures] computes. *)
Lemma loop_after_failures args task range : forall k attempt w0 w,
  attempt + k <= max_retries - 1 ->
  after_failures P args task attempt k w0 = Some w ->
  exists evs,
    timeline evs = failed_schedule attempt k /\ attempts evs = k /\
    environ_reads evs = [] /\
    Forall (fun x => x = (insert_sql, task)) (executed evs) /\
    retry_loop P args task (seq attempt k ++ range) w0 =
    match retry_loop P args task range w with
    | (r, w', evs') => (r, w', evs ++ evs')
    end.
Proof.
  induction k as [|k IH]; intros attempt w0 w Hle Hw; simpl in Hw.
  - injection Hw as <-. exists []. repeat split; [constructor|].
    simpl. now destruct (retry_loop P args task range w0) as [[r w'] evs'].
  - destruct (persist P args task w0) as [[[[]|e] w1] evs1] eqn:Hp; [discriminate|].
    destruct (IH (S attempt) _ _ ltac:(lia) Hw) as (evs & Ht & Ha & He & Hx & Hloop).
    destruct (persist_trace _ _ _ _ _ _ Hp) as (Ht1 & Ha1 & He1 & Hx1).
    exists (evs1 ++ [failure_log attempt e; EvSleep (backoff attempt)] ++ evs).
    repeat split.
    + rewrite !timeline_app, Ht1, Ht. reflexivity.
    + rewrite !attempts_app, Ha1, Ha. reflexivity.
    + rewrite !environ_reads_app, He1, He. reflexivity.
    + rewrite !executed_app. apply Forall_app. split; [assumption|].
      apply Forall_app. split; [constructor | assumption].
    + change (seq attempt (S k) ++ range)
        with (attempt :: (seq (S attempt) k ++ range)).
      rewrite (retry_loop_retry _ _ _ _ _ _ _ _ Hp) by lia.
      rewrite Hloop.
      destruct (retry_loop P args task range w) as [[r w'] evs'].
      now rewrite <- !app_assoc.
Qed.

(** The run of the loop when the first [k] attempts failed and attempt
    [k + 1] returned [r]: it is the last one if it succeeded or was the third. *)
Lemma loop_outcome args task k w0 w r w' evs1 :
  k < max_retries ->
  after_failures P args task 0 k w0 = Some w ->
  persist P args task w = (r, w', evs1) ->
  r = Ok tt \/ k = max_retries - 1 ->
  exists evs,
    retry_loop P args task (seq 0 max_retries) w0 =
    (Ok (Some (match r with
               | Ok _ => ok_response P task
               | Raise e => unavailable_response e
               end)), w', evs) /\
    timeline evs = failed_schedule 0 k ++ [Tried] /\ attempts evs = k + 1 /\
    environ_reads evs = [] /\
    Forall (fun x => x = (insert_sql, task)) (executed evs).
Proof.
  intros Hk Hw Hp Hlast. unfold max_retries in *.
  destruct (persist_trace _ _ _ _ _ _ Hp) as (Ht1 & Ha1 & He1 & Hx1).
  destruct (loop_after_failures args task (k :: seq (S k) (2 - k)) k 0 w0 w
              ltac:(unfold max_retries; lia) Hw) as (evs & Ht & Ha & He & Hx & Hloop).
  assert (Hrange : seq 0 3 = seq 0 k ++ k :: seq (S k) (2 - k)).
  { destruct k as [|[|[|k]]]; [reflexivity..|lia]. }
  rewrite Hrange, Hloop.
  destruct r as [[]|e].
  - rewrite (retry_loop_success _ _ _ _ _ _ _ Hp).
    eexists. split; [reflexivity|].
    rewrite !timeline_app, !attempts_app, !environ_reads_app, !executed_app.
    rewrite Ht, Ht1, Ha, Ha1, He, He1, !Forall_app.
    repeat split; try assumption; try constructor.
  - destruct Hlast as [Hok | ->]; [discriminate|].
    rewrite (retry_loop_exhausted _ _ _ _ _ _ _ _ Hp) by (unfold max_retries; lia).
    eexists. split; [reflexivity|].
    rewrite !timeline_app, !attempts_app, !environ_reads_app, !executed_app.
    rewrite Ht, Ht1, Ha, Ha1, He, He1, !Forall_app.
    repeat split; try assumption; try constructor.
Qed.

(** Every run of the loop is one of those. *)
Lemma loop_total args task w0 :
  exists k w r w' evs1,
    k < max_retries /\ after_failures P args task 0 k w0 = Some w /\
    persist P args task w = (r, w', evs1) /\ (r = Ok tt \/ k = max_retries - 1).
Proof.
  unfold max_retries.
  destruct (persist P args task w0) as [[[[]|e1] w1] evs1] eqn:H1.
  { exists 0, w0. repeat eexists; eauto. }
  destruct (persist P args task (clock_sleep P (backoff 0) w1))
    as [[[[]|e2] w2] evs2] eqn:H2.
  { exists 1. eexists. repeat eexists; [lia| simpl; rewrite H1; reflexivity |eassumption|eauto]. }
  destruct (persist P args task (clock_sleep P (backoff 1) w2))
    as [[r3 w3] evs3] eqn:H3.
  exists 2. eexists. repeat eexists;
    [lia| simpl; rewrite H1, H2; reflexivity |eassumption|eauto].
Qed.

Lemma failed_schedule_linear k :
  k < max_retries -> failed_schedule 0 k ++ [Tried] = linear_schedule k.
Proof.
  unfold max_retries. intros Hk.
  destruct k as [|[|[|k]]]; [vm_compute; reflexivity..|lia].
Qed.

Lemma half_units_value i :
  1 <= i <= 2 ->
  float_value (half_units i) = Some (Qreduction.Qred (QArith_base.Qmake (Z.of_nat i) 2)).
Proof.
  intros Hi. destruct i as [|[|[|i]]]; [lia|vm_compute; reflexivity..|lia].
Qed.

(** C1: when the request is valid, the configuration parses and all
    three persistence attempts raise, [main] makes exactly three attempts
    and returns 503 with the body "Database connection failed after 3
    attempts: " followed by the error of the third attempt. *)
Theorem C1_exhausted_after_three_attempts req task d w0 w e3 w3 evs3 :
  submitted_task P req = Some task ->
  configuration os_environ = Some d ->
  after_failures P d task 0 2 w0 = Some w ->
  persist P d task w = (Raise e3, w3, evs3) ->
  exists evs,
    main P os_environ req w0 =
    (Ok (Some {| body := "Database connection failed after 3 attempts: " +:+ exn_str e3;
                 status_code := 503 |}), w3, evs) /\
    attempts evs = 3.
Proof.
  intros Htask Hcfg Hw Hp.
  destruct (loop_outcome d task 2 w0 w _ _ _ ltac:(unfold max_retries; lia) Hw Hp
              ltac:(now right)) as (evs & Hloop & _ & Ha & _).
  rewrite (main_enters_loop _ _ _ _ Htask Hcfg), Hloop.
  eexists. split; [reflexivity|].
  rewrite attempts_app, Ha. reflexivity.
Qed.

(** C2: the attempts and sleeps of a run, in order: a failed attempt
    [i < 3] is followed by a sleep of [0.5 * i] time units and then by
    attempt [i + 1]; nothing follows the attempt that succeeds or the
    third attempt. *)
Theorem C2_linear_backoff req task d w0 k w r w' evs1 :
  submitted_task P req = Some task ->
  configuration os_environ = Some d ->
  k < max_retries ->
  after_failures P d task 0 k w0 = Some w ->
  persist P d task w = (r, w', evs1) ->
  r = Ok tt \/ k = max_retries - 1 ->
  timeline (snd (main P os_environ req w0)) = linear_schedule k /\
  sleeps (snd (main P os_environ req w0)) = map half_units (seq 1 k) /\
  forall i, 1 <= i <= k ->
    float_value (half_units i) = Some (Qreduction.Qred (QArith_base.Qmake (Z.of_nat i) 2)).
Proof.
  intros Htask Hcfg Hk Hw Hp Hlast.
  destruct (loop_outcome d task k w0 w _ _ _ Hk Hw Hp Hlast) as (evs & Hloop & Ht & _).
  assert (Htl : timeline (snd (main P os_environ req w0)) = linear_schedule k).
  { rewrite (main_enters_loop _ _ _ _ Htask Hcfg), Hloop. cbn [snd].
    rewrite timeline_app, Ht. now apply failed_schedule_linear. }
  split; [exact Htl|]. split.
  - rewrite sleeps_timeline, Htl. unfold max_retries in Hk.
    destruct k as [|[|[|k]]]; [reflexivity..|lia].
  - intros i Hi. apply half_units_value. unfold max_retries in Hk. lia.
Qed.

(** C4: when the request is valid, the configuration parses and attempt
    [k + 1 <= 3] is the first to succeed, [main] stops after it: it has
    made [k + 1] attempts and returns 200 with the body "Task added: "
    followed by the submitted task. *)
Theorem C4_success_stops_and_echoes req task d w0 k w w' evs1 :
  submitted_task P req = Some task ->
  configuration os_environ = Some d ->
  k < max_retries ->
  after_failures P d task 0 k w0 = Some w ->
  persist P d task w = (Ok tt, w', evs1) ->
  exists evs,
    main P os_environ req w0 =
    (Ok (Some {| body := "Task added: " +:+ py_str P task; status_code := 200 |}), w', evs) /\
    attempts evs = k + 1 /\
    forall s, task = PStr s -> py_str P task = s.
Proof.
  intros Htask Hcfg Hk Hw Hp.
  destruct (loop_outcome d task k w0 w _ _ _ Hk Hw Hp ltac:(now left))
    as (evs & Hloop & _ & Ha & _).
  rewrite (main_enters_loop _ _ _ _ Htask Hcfg), Hloop.
  eexists. split; [reflexivity|]. split.
  - rewrite attempts_app, Ha. reflexivity.
  - now intros s ->.
Qed.

Lemma submitted_task_inv req task :
  submitted_task P req = Some task ->
  exists kvs, json_loads P (req_body req) = inr (PDict kvs) /\
              dict_get kvs "task" = task /\ truthy task = true.
Proof.
  unfold submitted_task. intros H.
  destruct (json_loads P (req_body req)) as [e|v]; [discriminate|].
  destruct v as [| | | | | |kvs]; try discriminate.
  destruct (truthy (dict_get kvs "task")) eqn:Ht; [|discriminate].
  injection H as <-. eauto.
Qed.

Lemma dict_get_absent kvs key :
  Forall (fun kv => fst kv <> key) kvs -> dict_get kvs key = PNone.
Proof.
  induction 1 as [|[k v] kvs Hk _ IH]; [reflexivity|]. simpl in *.
  destruct (String.eqb k key) eqn:E; [|assumption].
  apply String.eqb_eq in E. contradiction.
Qed.

(** C6: for a valid request, when one of the four patterns finds nothing
    in the configured connection string, [main] returns 500 "Invalid
    connection string format" after reading the configuration once,
    without any persistence attempt or sleep, and leaves the world as it
    was. *)
Theorem C6_unparsable_connection_string req task cs w :
  submitted_task P req = Some task ->
  os_environ !! "SqlConnectionString" = Some cs ->
  re_search server_re cs = None \/ re_search db_re cs = None \/
  re_search user_re cs = None \/ re_search pwd_re cs = None ->
  exists evs,
    main P os_environ req w =
    (Ok (Some {| body := "Invalid connection string format"; status_code := 500 |}),
     w, evs) /\
    attempts evs = 0 /\ sleeps evs = [] /\ environ_reads evs = ["SqlConnectionString"].
Proof.
  intros Htask Hcs Hnone.
  apply submitted_task_inv in Htask as (kvs & Hjson & <- & Ht).
  rewrite main_run, Hjson. simpl. rewrite Ht, Hcs.
  exists [entry_log; EvEnviron "SqlConnectionString"].
  split; [|repeat split].
  destruct (re_search server_re cs), (re_search db_re cs), (re_search user_re cs),
    (re_search pwd_re cs); try reflexivity.
  destruct Hnone as [H|[H|[H|H]]]; discriminate.
Qed.

(** C9: when the environment has no [SqlConnectionString], [main] never
    returns the 500 "Invalid connection string format" response, and for
    every request that passes validation it raises [KeyError] right after
    the failed lookup: no response, no persistence attempt. *)
Theorem C9_absent_connection_string_raises req w :
  os_environ !! "SqlConnectionString" = None ->
  fst (fst (main P os_environ req w)) <> Ok (Some invalid_config_response) /\
  forall task, submitted_task P req = Some task ->
    main P os_environ req w =
    (Raise (KeyError "SqlConnectionString"), w,
     [entry_log; EvEnviron "SqlConnectionString"]).
Proof.
  intros Henv. split.
  - rewrite main_run, Henv.
    destruct (json_loads P (req_body req)) as [e|v]; [simpl; discriminate|].
    destruct (py_get v "task") as [e|task]; [simpl; discriminate|].
    destruct (truthy task); simpl; discriminate.
  - intros task Htask.
    apply submitted_task_inv in Htask as (kvs & Hjson & <- & Ht).
    rewrite main_run, Hjson. simpl. now rewrite Ht, Henv.
Qed.

(** What [main] hands to [cursor.execute], in every run: the constant
    statement, with the submitted task as its parameter. *)
Lemma main_executed req w :
  Forall (fun x => fst x = insert_sql /\ submitted_task P req = Some (snd x))
         (executed (snd (main P os_environ req w))).
Proof.
  rewrite main_run. unfold submitted_task.
  destruct (json_loads P (req_body req)) as [e|v]; [constructor|].
  destruct v as [| | | | | |kvs]; try constructor. cbn [py_get].
  destruct (truthy (dict_get kvs "task")) eqn:Ht; [|constructor].
  destruct (os_environ !! "SqlConnectionString") as [cs|]; [|constructor].
  destruct (re_search server_re cs) as [sm|]; [|constructor].
  destruct (re_search db_re cs) as [dm|]; [|constructor].
  destruct (re_search user_re cs) as [um|]; [|constructor].
  destruct (re_search pwd_re cs) as [pm|]; [|constructor].
  destruct (py_int (group sm 2)) as [e|port]; [constructor|].
  match goal with |- context [retry_loop P ?a _ _ w] => set (args := a) end.
  destruct (loop_total args (dict_get kvs "task") w)
    as (k & w1 & r & w' & evs1 & Hk & Hw & Hp & Hlast).
  destruct (loop_outcome _ _ _ _ _ _ _ _ Hk Hw Hp Hlast) as (evs & -> & _ & _ & _ & Hx).
  cbn [snd]. rewrite executed_app. simpl.
  eapply Forall_impl; [exact Hx|]. intros x ->. now split.
Qed.

(** C10: the check of line 19 is the truth value of [task]: a falsy
    value (an absent key gives [None]; null, the empty string, 0, false
    and the empty array are falsy) gets "Missing 'task'" with no
    persistence attempt, and a truthy value of any type is never
    answered so: under a configuration that parses it is handed to the
    retry loop, which makes at least one attempt and binds that very
    value as the parameter of the statement. *)
Theorem C10_validation_is_truthiness req kvs w :
  json_loads P (req_body req) = inr (PDict kvs) ->
  (truthy (dict_get kvs "task") = false ->
     main P os_environ req w = (Ok (Some missing_task_response), w, [entry_log])) /\
  (truthy (dict_get kvs "task") = true ->
     fst (fst (main P os_environ req w)) <> Ok (Some missing_task_response) /\
     forall d, configuration os_environ = Some d ->
       1 <= attempts (snd (main P os_environ req w)) /\
       Forall (fun x => x = (insert_sql, dict_get kvs "task"))
              (executed (snd (main P os_environ req w)))) /\
  (Forall (fun kv => fst kv <> "task") kvs -> dict_get kvs "task" = PNone) /\
  Forall (fun v => truthy v = false) [PNone; PStr ""; PInt 0; PBool false; PList []].
Proof.
  intros Hjson. split; [|split; [|split]].
  - intros Ht. rewrite main_run, Hjson. simpl. now rewrite Ht.
  - intros Ht.
    assert (Htask : submitted_task P req = Some (dict_get kvs "task")).
    { unfold submitted_task. now rewrite Hjson, Ht. }
    split.
    + rewrite main_run, Hjson. cbn [py_get]. rewrite Ht.
      destruct (os_environ !! "SqlConnectionString") as [cs|]; [|simpl; discriminate].
      destruct (re_search server_re cs) as [sm|]; [|simpl; discriminate].
      destruct (re_search db_re cs) as [dm|]; [|simpl; discriminate].
      destruct (re_search user_re cs) as [um|]; [|simpl; discriminate].
      destruct (re_search pwd_re cs) as [pm|]; [|simpl; discriminate].
      destruct (py_int (group sm 2)) as [e|port]; [simpl; discriminate|].
      match goal with |- context [retry_loop P ?a _ _ w] => set (args := a) end.
      destruct (loop_total args (dict_get kvs "task") w)
        as (k & w1 & r & w' & evs1 & Hk & Hw & Hp & Hlast).
      destruct (loop_outcome _ _ _ _ _ _ _ _ Hk Hw Hp Hlast) as (evs & -> & _).
      cbn [fst]. destruct r; discriminate.
    + intros d Hcfg. rewrite (main_enters_loop _ _ _ _ Htask Hcfg).
      destruct (loop_total d (dict_get kvs "task") w)
        as (k & w1 & r & w' & evs1 & Hk & Hw & Hp & Hlast).
      destruct (loop_outcome _ _ _ _ _ _ _ _ Hk Hw Hp Hlast)
        as (evs & -> & _ & Ha & _ & Hx).
      cbn [snd]. rewrite attempts_app, executed_app, Ha. simpl. split; [lia|exact Hx].
  - apply dict_get_absent.
  - repeat constructor.
Qed.
(** *** Where the handler departs from its contract *)

(** Only a successful attempt closes its connection: on the way out
    through [except], the connection an attempt acquired stays open
    unless it was [close] itself that raised. *)
Lemma persist_leaks_on_error args task w c w1 e w' evs :
  db_connect P args w = (inr c, w1) ->
  persist P args task w = (Raise e, w', evs) ->
  closes evs = [] \/ exists e', In (EvClose c (Some e')) evs.
Proof.
  unfold persist, mbind, M_bind, pymssql_connect, conn_cursor, cursor_execute,
    conn_commit, conn_close.
  intros ->. simpl.
  destruct (db_cursor P c w1) as [[e1|k] w2]; simpl; [intros [= <- <- <-]; now left|].
  destruct (db_execute P k insert_sql task w2) as [[e2|] w3]; simpl;
    [intros [= <- <- <-]; now left|].
  destruct (db_commit P c w3) as [[e3|] w4]; simpl; [intros [= <- <- <-]; now left|].
  destruct (db_close P c w4) as [[e4|] w5]; simpl; [|discriminate].
  intros [= <- <- <-]. right. exists e4. simpl. tauto.
Qed.

(** A body that decodes to anything but an object makes [main] raise
    [AttributeError] at [req_body.get]: no response is returned. *)
Lemma non_object_body_raises req v w :
  json_loads P (req_body req) = inr v ->
  (forall kvs, v <> PDict kvs) ->
  main P os_environ req w = (Raise (AttributeError v "get"), w, [entry_log]).
Proof.
  intros Hjson Hv. rewrite main_run, Hjson.
  destruct v; try reflexivity. now destruct (Hv kvs).
Qed.

(** A body that does not decode is answered 400 "Invalid JSON" before
    the configuration is read or the store is touched. *)
Lemma invalid_json_rejected req e w :
  json_loads P (req_body req) = inl e ->
  main P os_environ req w =
  (Ok (Some {| body := "Invalid JSON"; status_code := 400 |}), w, [entry_log]).
Proof. intros Hjson. now rewrite main_run, Hjson. Qed.
End Run.

(** C7: whatever the request, the platform and the configuration, every
    statement [main] executes is the one constant parameterized INSERT,
    with the submitted task as its bound parameter; so the statements of
    any two runs are the same text. *)
Theorem C7_constant_parameterized_sql
    {W1 W2 : Type} (P1 : platform W1) (P2 : platform W2)
    (env1 env2 : gmap string string) (req1 req2 : HttpRequest) (w1 : W1) (w2 : W2) :
  insert_sql = "INSERT INTO dbo.Tasks (Payload) VALUES (%s)" /\
  Forall (fun x => fst x = insert_sql /\ submitted_task P1 req1 = Some (snd x))
         (executed (snd (main P1 env1 req1 w1))) /\
  Forall (fun x1 => Forall (fun x2 => fst x1 = fst x2)
                           (executed (snd (main P2 env2 req2 w2))))
         (executed (snd (main P1 env1 req1 w1))).
Proof.
  split; [reflexivity|]. split; [apply main_executed|].
  eapply Forall_impl; [apply (main_executed P1 env1 req1 w1)|].
  intros x1 [H1 _].
  eapply Forall_impl; [apply (main_executed P2 env2 req2 w2)|].
  intros x2 [H2 _]. congruence.
Qed.

(** *** The theorems on the sample inputs *)

Lemma C1_witness :
  exists evs,
    main (scripted Demo.execute_fails Demo.table) Demo.environ
         (Demo.request Demo.task_body) 0 =
    (Ok (Some {| body := "Database connection failed after 3 attempts: "
                         +:+ exn_str (db_error "execute" 2);
                 status_code := 503 |}), 3, evs) /\
    attempts evs = 3.
Proof.
  refine (C1_exhausted_after_three_attempts
            (scripted Demo.execute_fails Demo.table) Demo.environ
            (Demo.request Demo.task_body) (PStr "buy milk") Demo.args
            0 2 (db_error "execute" 2) 3 _ _ _ _ _);
    vm_compute; reflexivity.
Defined.

Lemma C2_witness :
  timeline (snd (main (scripted Demo.third_time_lucky Demo.table) Demo.environ
                      (Demo.request Demo.task_body) 0))
  = linear_schedule 2 /\
  sleeps (snd (main (scripted Demo.third_time_lucky Demo.table) Demo.environ
                    (Demo.request Demo.task_body) 0))
  = map half_units (seq 1 2) /\
  forall i, 1 <= i <= 2 ->
    float_value (half_units i) = Some (Qreduction.Qred (QArith_base.Qmake (Z.of_nat i) 2)).
Proof.
  refine (C2_linear_backoff
            (scripted Demo.third_time_lucky Demo.table) Demo.environ
            (Demo.request Demo.task_body) (PStr "buy milk") Demo.args
            0 2 2 (Ok tt) 3 _ _ _ _ _ _ _);
    [vm_compute; reflexivity | vm_compute; reflexivity | unfold max_retries; lia
    | vm_compute; reflexivity | vm_compute; reflexivity | left; reflexivity].
Defined.

Lemma C4_witness :
  exists evs,
    main (scripted Demo.second_time_lucky Demo.table) Demo.environ
         (Demo.request Demo.task_body) 0 =
    (Ok (Some {| body := "Task added: "
                         +:+ py_str (scripted Demo.second_time_lucky Demo.table)
                                    (PStr "buy milk");
                 status_code := 200 |}), 2, evs) /\
    attempts evs = 1 + 1 /\
    forall s, PStr "buy milk" = PStr s ->
              py_str (scripted Demo.second_time_lucky Demo.table) (PStr "buy milk") = s.
Proof.
  refine (C4_success_stops_and_echoes
            (scripted Demo.second_time_lucky Demo.table) Demo.environ
            (Demo.request Demo.task_body) (PStr "buy milk") Demo.args
            0 1 1 2 _ _ _ _ _ _);
    [vm_compute; reflexivity | vm_compute; reflexivity | unfold max_retries; lia
    | vm_compute; reflexivity | vm_compute; reflexivity].
Defined.

Lemma C6_witness :
  exists evs,
    main (scripted Demo.healthy Demo.table) Demo.environ_no_user
         (Demo.request Demo.task_body) 0 =
    (Ok (Some {| body := "Invalid connection string format"; status_code := 500 |}),
     0, evs) /\
    attempts evs = 0 /\ sleeps evs = [] /\ environ_reads evs = ["SqlConnectionString"].
Proof.
  refine (C6_unparsable_connection_string
            (scripted Demo.healthy Demo.table) Demo.environ_no_user
            (Demo.request Demo.task_body) (PStr "buy milk") Demo.conn_str_no_user 0 _ _ _);
    [vm_compute; reflexivity | vm_compute; reflexivity
    | right; right; left; vm_compute; reflexivity].
Defined.

Lemma C9_witness :
  fst (fst (main (scripted Demo.healthy Demo.table) ∅ (Demo.request Demo.task_body) 0))
  <> Ok (Some invalid_config_response) /\
  main (scripted Demo.healthy Demo.table) ∅ (Demo.request Demo.task_body) 0 =
  (Raise (KeyError "SqlConnectionString"), 0,
   [entry_log; EvEnviron "SqlConnectionString"]).
Proof.
  destruct (C9_absent_connection_string_raises
              (scripted Demo.healthy Demo.table) ∅ (Demo.request Demo.task_body) 0)
    as [Hnot Hraise]; [vm_compute; reflexivity|].
  split; [exact Hnot|].
  apply (Hraise (PStr "buy milk")). vm_compute; reflexivity.
Defined.

Lemma C10_witness :
  main (scripted Demo.healthy Demo.table) Demo.environ
       (Demo.request Demo.zero_task_body) 0
  = (Ok (Some missing_task_response), 0, [entry_log]) /\
  1 <= attempts (snd (main (scripted Demo.healthy Demo.table) Demo.environ
                           (Demo.request Demo.number_task_body) 0)) /\
  Forall (fun x => x = (insert_sql, dict_get [("task", PInt 42)] "task"))
         (executed (snd (main (scripted Demo.healthy Demo.table) Demo.environ
                              (Demo.request Demo.number_task_body) 0))).
Proof.
  split.
  - apply (C10_validation_is_truthiness
             (scripted Demo.healthy Demo.table) Demo.environ
             (Demo.request Demo.zero_task_body) [("task", PInt 0)] 0);
      vm_compute; reflexivity.
  - destruct (C10_validation_is_truthiness
                (scripted Demo.healthy Demo.table) Demo.environ
                (Demo.request Demo.number_task_body) [("task", PInt 42)] 0)
      as (_ & Htruthy & _); [vm_compute; reflexivity|].
    destruct Htruthy as [_ Hloop]; [vm_compute; reflexivity|].
    apply (Hloop Demo.args). vm_compute; reflexivity.
Defined.


(** C3, where the code departs from it: on a server whose every
    [execute] fails (and likewise one whose every [commit] fails), the
    three attempts acquire connections 0, 1 and 2, [close] is never
    called, and all three are still open when [main] returns 503; only
    on the path where nothing fails is the connection closed. *)
Theorem C3_failed_attempts_leave_connections_open :
  fst (fst (main (scripted Demo.execute_fails Demo.table) Demo.environ
                 (Demo.request Demo.task_body) 0))
  = Ok (Some (unavailable_response (db_error "execute" 2))) /\
  closes (snd (main (scripted Demo.execute_fails Demo.table) Demo.environ
                    (Demo.request Demo.task_body) 0)) = [] /\
  open_connections (snd (main (scripted Demo.execute_fails Demo.table) Demo.environ
                              (Demo.request Demo.task_body) 0)) [] = [0; 1; 2] /\
  open_connections (snd (main (scripted Demo.commit_fails Demo.table) Demo.environ
                              (Demo.request Demo.task_body) 0)) [] = [0; 1; 2] /\
  open_connections (snd (main (scripted Demo.healthy Demo.table) Demo.environ
                              (Demo.request Demo.task_body) 0)) [] = [].
Proof. repeat split; vm_compute; reflexivity. Qed.

(** C5, where the code departs from it: the body [[]] is valid JSON
    without a [task], and [main] answers it with no response at all: it
    raises [AttributeError] at [req_body.get], after the entry log line
    and before any read of the configuration or persistence attempt. *)
Theorem C5_array_body_raises_attribute_error :
  main (scripted Demo.healthy Demo.table) Demo.environ (Demo.request "[]") 0
  = (Raise (AttributeError (PList []) "get"), 0, [entry_log]) /\
  exn_str (AttributeError (PList []) "get") = "'list' object has no attribute 'get'".
Proof. split; vm_compute; reflexivity. Qed.
End HttpTriggerFacts.

(** ** The SQL change consumer *)

Module SqlTriggerFacts.
Import SqlTriggerBinding.

Section Run.
Context {W : Type} (P : platform W).

Lemma change_line_record kvs w :
  change_line P (PDict kvs) w = (Ok (record_line P kvs), w, []).
Proof. reflexivity. Qed.

Lemma log_changes_records rest : forall records w,
  log_changes P (map PDict records ++ rest) w =
  match log_changes P rest w with
  | (r, w', evs) =>
      (r, w', map (fun kvs => EvLog INFO (record_line P kvs)) records ++ evs)
  end.
Proof.
  induction records as [|kvs records IH]; intros w; simpl.
  - now destruct (log_changes P rest w) as [[r w'] evs].
  - unfold mbind at 1. unfold M_bind at 1. rewrite change_line_record.
    unfold mbind at 1. unfold M_bind at 1. unfold logging_info at 1, emit.
    rewrite IH. now destruct (log_changes P rest w) as [[r w'] evs].
Qed.

Lemma log_changes_not_object x rest e w :
  py_get x "Id" = inl e -> log_changes P (x :: rest) w = (Raise e, w, []).
Proof.
  intros H. simpl. unfold mbind at 1. unfold M_bind at 1.
  unfold change_line. unfold mbind at 1. unfold M_bind at 1. now rewrite H.
Qed.

(** The loop over the items never changes the world. *)
Lemma log_changes_world : forall items w,
  exists r evs, log_changes P items w = (r, w, evs).
Proof.
  induction items as [|x items IH]; intros w; simpl; [now eauto|].
  unfold mbind at 1. unfold M_bind at 1.
  destruct x as [| | | | | |kvs]; try (now eexists _, _).
  rewrite change_line_record.
  unfold mbind at 1. unfold M_bind at 1. unfold logging_info at 1, emit.
  destruct (IH w) as (r & evs & ->). now eexists _, _.
Qed.

(** [main] in direct style. *)
Lemma consumer_run changes w :
  main P changes w =
  match json_loads P changes with
  | inl e => (Ok tt, w, fired_log :: error_logs e changes)
  | inr changes_list =>
      if truthy changes_list then
        match py_iter changes_list with
        | inl e => (Ok tt, w, fired_log :: error_logs e changes)
        | inr items =>
            match log_changes P items w with
            | (Ok _, w', evs) => (Ok tt, w', fired_log :: evs)
            | (Raise e, w', evs) => (Ok tt, w', fired_log :: evs ++ error_logs e changes)
            end
        end
      else (Ok tt, w, [fired_log; no_changes_log])
  end.
Proof.
  unfold main, mbind, M_bind, try_except, logging_info, logging_error, emit.
  destruct (json_loads P changes) as [e|v]; simpl; [reflexivity|].
  destruct (truthy v); simpl; [|reflexivity].
  destruct (py_iter v) as [e|items]; simpl; [reflexivity|].
  destruct (log_changes P items w) as [[[[]|e] w'] evs]; reflexivity.
Qed.

(** C8: for every input the handler returns normally, leaving the world
    as it was.  After the entry line every call logs, a non-empty array
    of objects gives one line per record and nothing else; an empty array
    (like every falsy decoded value) gives the "no changes" line and
    nothing else; an input the decoder rejects, a decoded value that
    cannot be iterated, and an item that is not an object are caught and
    logged as the error followed by the raw input. *)
Theorem C8_change_consumer_never_raises changes w :
  (exists evs, main P changes w = (Ok tt, w, evs)) /\
  (forall records, records <> [] ->
     json_loads P changes = inr (PList (map PDict records)) ->
     main P changes w =
     (Ok tt, w, fired_log :: map (fun kvs => EvLog INFO (record_line P kvs)) records)) /\
  (json_loads P changes = inr (PList []) ->
     main P changes w = (Ok tt, w, [fired_log; no_changes_log])) /\
  (forall v, json_loads P changes = inr v -> truthy v = false ->
     main P changes w = (Ok tt, w, [fired_log; no_changes_log])) /\
  (forall e, json_loads P changes = inl e ->
     main P changes w = (Ok tt, w, fired_log :: error_logs e changes)) /\
  (forall v e, json_loads P changes = inr v -> truthy v = true -> py_iter v = inl e ->
     main P changes w = (Ok tt, w, fired_log :: error_logs e changes)) /\
  (forall v records x rest e,
     json_loads P changes = inr v -> truthy v = true ->
     py_iter v = inr (map PDict records ++ x :: rest) -> py_get x "Id" = inl e ->
     main P changes w =
     (Ok tt, w, fired_log :: map (fun kvs => EvLog INFO (record_line P kvs)) records
                ++ error_logs e changes)).
Proof.
  repeat split.
  - rewrite consumer_run.
    destruct (json_loads P changes) as [e|v]; [now eauto|].
    destruct (truthy v); [|now eauto].
    destruct (py_iter v) as [e|items]; [now eauto|].
    destruct (log_changes_world items w) as (r & evs & ->).
    destruct r; now eauto.
  - intros records Hne Hjson. rewrite consumer_run, Hjson.
    destruct records as [|kvs records]; [congruence|].
    cbn [truthy map py_iter].
    rewrite <- (app_nil_r (PDict kvs :: map PDict records)).
    change (PDict kvs :: map PDict records) with (map PDict (kvs :: records)).
    rewrite log_changes_records. simpl. now rewrite app_nil_r.
  - intros Hjson. now rewrite consumer_run, Hjson.
  - intros v Hjson Ht. now rewrite consumer_run, Hjson, Ht.
  - intros e Hjson. now rewrite consumer_run, Hjson.
  - intros v e Hjson Ht Hiter. now rewrite consumer_run, Hjson, Ht, Hiter.
  - intros v records x rest e Hjson Ht Hiter Hx.
    rewrite consumer_run, Hjson, Ht, Hiter, log_changes_records.
    now rewrite (log_changes_not_object _ _ _ _ Hx), app_nil_r.
Qed.
End Run.

Lemma C8_witness :
  main (scripted Demo.healthy Demo.table) Demo.batch_text 0
  = (Ok tt, 0,
     [fired_log;
      EvLog INFO "SQL Trigger fired: Id=7, Payload=buy milk, Processed=False";
      EvLog INFO "SQL Trigger fired: Id=8, Payload=walk dog, Processed=False"]) /\
  main (scripted Demo.healthy Demo.table) "[]" 0
  = (Ok tt, 0, [fired_log; no_changes_log]) /\
  main (scripted Demo.healthy Demo.table) "not json" 0
  = (Ok tt, 0,
     fired_log :: error_logs (Exn "JSONDecodeError" "Expecting value: line 1 column 1 (char 0)")
                             "not json") /\
  main (scripted Demo.healthy Demo.table) "5" 0
  = (Ok tt, 0, fired_log :: error_logs (TypeError_not_iterable (PInt 5)) "5") /\
  main (scripted Demo.healthy Demo.table) Demo.mixed_batch_text 0
  = (Ok tt, 0,
     fired_log :: EvLog INFO "SQL Trigger fired: Id=7, Payload=buy milk, Processed=False"
     :: error_logs (AttributeError (PInt 5) "get") Demo.mixed_batch_text).
Proof.
  split; [|split; [|split; [|split]]].
  - apply (C8_change_consumer_never_raises (scripted Demo.healthy Demo.table)
             Demo.batch_text 0)
      with (records := [Demo.record 7 "buy milk"; Demo.record 8 "walk dog"]);
      [discriminate | vm_compute; reflexivity].
  - apply (C8_change_consumer_never_raises (scripted Demo.healthy Demo.table) "[]" 0).
    vm_compute; reflexivity.
  - apply (C8_change_consumer_never_raises (scripted Demo.healthy Demo.table) "not json" 0).
    vm_compute; reflexivity.
  - apply (C8_change_consumer_never_raises (scripted Demo.healthy Demo.table) "5" 0)
      with (v := PInt 5); vm_compute; reflexivity.
  - apply (C8_change_consumer_never_raises (scripted Demo.healthy Demo.table)
             Demo.mixed_batch_text 0)
      with (v := PList [PDict (Demo.record 7 "buy milk"); PInt 5])
           (records := [Demo.record 7 "buy milk"]) (x := PInt 5) (rest := []);
      vm_compute; reflexivity.
Defined.
End SqlTriggerFacts.

(** * Further properties of the handlers *)

Module HttpTriggerMore.
Import HttpTrigger HttpTriggerFacts.

(** Driver calls that committed. *)
Definition as_commit_ok (ev : event) : option connection :=
  match ev with EvCommit c None => Some c | _ => None end.

Definition committed (evs : list event) : list connection := omap as_commit_ok evs.

Lemma committed_app (a b : list event) : committed (a ++ b) = committed a ++ committed b.
Proof. apply omap_app. Qed.

Lemma closes_app (a b : list event) : closes (a ++ b) = closes a ++ closes b.
Proof. apply omap_app. Qed.

Section Run.
Context {W : Type} (P : platform W) (os_environ : gmap string string).


(** No run makes more than three attempts; the sleeps of a run are 0.5,
    then 1.0, one after each attempt but the last; the configuration is
    read at most once. *)
Theorem main_attempts_bounded req w :
  attempts (snd (main P os_environ req w)) <= max_retries /\
  sleeps (snd (main P os_environ req w))
  = map half_units (seq 1 (attempts (snd (main P os_environ req w)) - 1)) /\
  length (environ_reads (snd (main P os_environ req w))) <= 1.
Proof.
  rewrite main_run.
  destruct (json_loads P (req_body req)) as [e|v]; [vm_compute; auto|].
  destruct (py_get v "task") as [e|task]; [vm_compute; auto|].
  destruct (truthy task); [|vm_compute; auto].
  destruct (os_environ !! "SqlConnectionString") as [cs|]; [|vm_compute; auto].
  destruct (re_search server_re cs) as [sm|]; [|vm_compute; auto].
  destruct (re_search db_re cs) as [dm|]; [|vm_compute; auto].
  destruct (re_search user_re cs) as [um|]; [|vm_compute; auto].
  destruct (re_search pwd_re cs) as [pm|]; [|vm_compute; auto].
  destruct (py_int (group sm 2)) as [e|port]; [vm_compute; auto|].
  match goal with |- context [retry_loop P ?a _ _ w] => set (args := a) end.
  destruct (loop_total P args task w)
    as (k & w1 & r & w' & evs1 & Hk & Hw & Hp & Hlast).
  destruct (loop_outcome P _ _ _ _ _ _ _ _ Hk Hw Hp Hlast)
    as (evs & -> & Ht & Ha & He & _).
  cbn [snd]. rewrite attempts_app, environ_reads_app, He, Ha.
  rewrite sleeps_timeline, timeline_app, Ht, failed_schedule_linear by exact Hk.
  unfold max_retries in *.
  destruct k as [|[|[|k]]]; [vm_compute; auto..|lia].
Qed.

(** The events of [n] failed attempts from index [attempt] on: those of
    each attempt, its warning line and its backoff sleep. *)
Fixpoint failures_trace (args : connect_args) (task_text : pyval)
    (attempt n : nat) (w : W) : list event :=
  match n with
  | 0 => []
  | S n' =>
      match persist P args task_text w with
      | (Raise e, w1, evs1) =>
          evs1 ++ [failure_log attempt e; EvSleep (backoff attempt)]
          ++ failures_trace args task_text (S attempt) n'
               (clock_sleep P (backoff attempt) w1)
      | (Ok _, _, _) => []
      end
  end.

Lemma loop_failures_trace args task range : forall k attempt w0 w,
  attempt + k <= max_retries - 1 ->
  after_failures P args task attempt k w0 = Some w ->
  retry_loop P args task (seq attempt k ++ range) w0 =
  match retry_loop P args task range w with
  | (r, w', evs') => (r, w', failures_trace args task attempt k w0 ++ evs')
  end.
Proof.
  induction k as [|k IH]; intros attempt w0 w Hle Hw; simpl in Hw.
  - injection Hw as <-. simpl.
    now destruct (retry_loop P args task range w0) as [[r w'] evs'].
  - simpl failures_trace.
    destruct (persist P args task w0) as [[[[]|e] w1] evs1] eqn:Hp; [discriminate|].
    change (seq attempt (S k) ++ range) with (attempt :: (seq (S attempt) k ++ range)).
    rewrite (retry_loop_retry _ _ _ _ _ _ _ _ _ Hp) by lia.
    rewrite (IH (S attempt) _ _ ltac:(lia) Hw).
    destruct (retry_loop P args task range w) as [[r w'] evs'].
    now rewrite <- !app_assoc.
Qed.

Lemma range_split k :
  k < max_retries -> seq 0 max_retries = seq 0 k ++ k :: seq (S k) (max_retries - 1 - k).
Proof.
  unfold max_retries. intros Hk. destruct k as [|[|[|k]]]; [reflexivity..|lia].
Qed.

(** What a successful attempt does, call by call. *)
Lemma persist_success_trace args task w w' evs :
  persist P args task w = (Ok tt, w', evs) ->
  exists c k,
    evs = [EvConnect args (inr c); EvCursor c (inr k);
           EvExecute k insert_sql task None; EvCommit c None; EvClose c None].
Proof.
  unfold persist, mbind, M_bind, pymssql_connect, conn_cursor, cursor_execute,
    conn_commit, conn_close.
  destruct (db_connect P args w) as [[e|c] w1]; simpl; [discriminate|].
  destruct (db_cursor P c w1) as [[e|k] w2]; simpl; [discriminate|].
  destruct (db_execute P k insert_sql task w2) as [[e|] w3]; simpl; [discriminate|].
  destruct (db_commit P c w3) as [[e|] w4]; simpl; [discriminate|].
  destruct (db_close P c w4) as [[e|] w5]; simpl; [discriminate|].
  intros [= <- <-]. now exists c, k.
Qed.

(** A 200 is only returned at the end of an attempt that executed the
    INSERT with the submitted task, committed, and closed its connection:
    these calls, all without error, and the success line end the trace. *)
Theorem ok_response_means_committed req w resp :
  fst (fst (main P os_environ req w)) = Ok (Some resp) ->
  status_code resp = 200%Z ->
  exists task args pre c k n,
    submitted_task P req = Some task /\ resp = ok_response P task /\
    snd (main P os_environ req w) =
    pre ++ [EvConnect args (inr c); EvCursor c (inr k);
            EvExecute k insert_sql task None; EvCommit c None; EvClose c None;
            success_log n].
Proof.
  rewrite main_run. unfold submitted_task.
  destruct (json_loads P (req_body req)) as [e|v]; [intros [= <-]; discriminate|].
  destruct v as [| | | | | |kvs]; try discriminate. cbn [py_get].
  destruct (truthy (dict_get kvs "task")) eqn:Ht; [|intros [= <-]; discriminate].
  destruct (os_environ !! "SqlConnectionString") as [cs|]; [|discriminate].
  destruct (re_search server_re cs) as [sm|]; [|intros [= <-]; discriminate].
  destruct (re_search db_re cs) as [dm|]; [|intros [= <-]; discriminate].
  destruct (re_search user_re cs) as [um|]; [|intros [= <-]; discriminate].
  destruct (re_search pwd_re cs) as [pm|]; [|intros [= <-]; discriminate].
  destruct (py_int (group sm 2)) as [e|port]; [discriminate|].
  match goal with |- context [retry_loop P ?a _ _ w] => set (args := a) end.
  destruct (loop_total P args (dict_get kvs "task") w)
    as (k & w1 & r & w' & evs1 & Hk & Hw & Hp & Hlast).
  rewrite (range_split k Hk).
  rewrite (loop_failures_trace args _ _ k 0 w w1 ltac:(unfold max_retries in *; lia) Hw).
  destruct r as [[]|e].
  - rewrite (retry_loop_success _ _ _ _ _ _ _ _ Hp). cbn [fst snd].
    intros [= <-] _.
    destruct (persist_success_trace _ _ _ _ _ Hp) as (c & kk & ->).
    exists (dict_get kvs "task"), args,
      ([entry_log; EvEnviron "SqlConnectionString"]
       ++ failures_trace args (dict_get kvs "task") 0 k w), c, kk, k.
    split; [reflexivity|]. split; reflexivity.
  - destruct Hlast as [Hok | ->]; [discriminate|].
    rewrite (retry_loop_exhausted _ _ _ _ _ _ _ _ _ Hp) by (unfold max_retries; lia).
    cbn [fst]. intros [= <-]. discriminate.
Qed.

(** A server on which everything works except [close]. *)
Definition only_close_fails : Prop :=
  (forall a w, exists c, fst (db_connect P a w) = inr c) /\
  (forall c w, exists k, fst (db_cursor P c w) = inr k) /\
  (forall k sql v w, fst (db_execute P k sql v w) = None) /\
  (forall c w, fst (db_commit P c w) = None) /\
  (forall c w, exists e, fst (db_close P c w) = Some e).

Lemma persist_close_fails args task w :
  only_close_fails ->
  exists e w' evs,
    persist P args task w = (Raise e, w', evs) /\ length (committed evs) = 1.
Proof.
  intros (Hconn & Hcur & Hexe & Hcom & Hclo).
  unfold persist, mbind, M_bind, pymssql_connect, conn_cursor, cursor_execute,
    conn_commit, conn_close.
  destruct (Hconn args w) as [c Hc].
  destruct (db_connect P args w) as [r1 w1]. simpl in Hc. subst r1. simpl.
  destruct (Hcur c w1) as [k Hk].
  destruct (db_cursor P c w1) as [r2 w2]. simpl in Hk. subst r2. simpl.
  specialize (Hexe k insert_sql task w2).
  destruct (db_execute P k insert_sql task w2) as [r3 w3]. simpl in Hexe. subst r3. simpl.
  specialize (Hcom c w3).
  destruct (db_commit P c w3) as [r4 w4]. simpl in Hcom. subst r4. simpl.
  destruct (Hclo c w4) as [e He].
  destruct (db_close P c w4) as [r5 w5]. simpl in He. subst r5. simpl.
  now eexists _, _, _.
Qed.

Lemma failures_close_fails args task :
  only_close_fails ->
  forall n attempt w,
    exists w', after_failures P args task attempt n w = Some w' /\
               length (committed (failures_trace args task attempt n w)) = n.
Proof.
  intros Hplat. induction n as [|n IH]; intros attempt w; simpl; [now eauto|].
  destruct (persist_close_fails args task w Hplat) as (e & w1 & evs1 & -> & Hc).
  destruct (IH (S attempt) (clock_sleep P (backoff attempt) w1)) as (w' & -> & Hn).
  exists w'. split; [reflexivity|].
  rewrite committed_app, length_app, Hc.
  change (committed (failure_log attempt e :: EvSleep (backoff attempt) :: ?x))
    with (committed x).
  now rewrite Hn.
Qed.

(** A 503 does not mean that nothing was written: [close] runs inside
    the [try], after [commit].  When it is only [close] that fails, each
    of the three attempts commits its INSERT and is then counted as
    failed, so the task is committed three times and the caller gets 503. *)
Theorem close_failure_commits_three_times req task d w :
  submitted_task P req = Some task ->
  configuration os_environ = Some d ->
  only_close_fails ->
  (exists e, fst (fst (main P os_environ req w)) = Ok (Some (unavailable_response e))) /\
  length (committed (snd (main P os_environ req w))) = 3 /\
  Forall (fun x => x = (insert_sql, task)) (executed (snd (main P os_environ req w))).
Proof.
  intros Htask Hcfg Hplat.
  rewrite (main_enters_loop P os_environ _ _ _ _ Htask Hcfg).
  destruct (failures_close_fails d task Hplat 2 0 w) as (w2 & Hw & Hn).
  destruct (persist_close_fails d task w2 Hplat) as (e & w3 & evs3 & Hp & Hc).
  destruct (loop_outcome P d task 2 w w2 _ _ _ ltac:(unfold max_retries; lia) Hw Hp
              ltac:(now right)) as (evs & Hloop & _ & _ & _ & Hx).
  assert (Hsame : retry_loop P d task (seq 0 max_retries) w =
                  (Ok (Some (unavailable_response e)), w3,
                   failures_trace d task 0 2 w ++ evs3 ++ [failure_log 2 e; exhausted_log])).
  { rewrite (range_split 2 ltac:(unfold max_retries; lia)).
    rewrite (loop_failures_trace d task _ 2 0 w w2 ltac:(unfold max_retries; lia) Hw).
    now rewrite (retry_loop_exhausted _ _ _ _ _ _ _ _ _ Hp)
      by (unfold max_retries; lia). }
  assert (Hevs : evs = failures_trace d task 0 2 w ++ evs3
                       ++ [failure_log 2 e; exhausted_log]) by congruence.
  rewrite Hloop. cbn [fst snd].
  split; [now exists e|]. split.
  - rewrite Hevs, !committed_app, !length_app, Hn, Hc. reflexivity.
  - rewrite executed_app. exact Hx.
Qed.
End Run.

Lemma ok_response_means_committed_witness :
  exists task args pre c k n,
    submitted_task (scripted Demo.second_time_lucky Demo.table)
                   (Demo.request Demo.task_body) = Some task /\
    ok_response (scripted Demo.second_time_lucky Demo.table) (PStr "buy milk")
    = ok_response (scripted Demo.second_time_lucky Demo.table) task /\
    snd (main (scripted Demo.second_time_lucky Demo.table) Demo.environ
              (Demo.request Demo.task_body) 0) =
    pre ++ [EvConnect args (inr c); EvCursor c (inr k);
            EvExecute k insert_sql task None; EvCommit c None; EvClose c None;
            success_log n].
Proof.
  apply (ok_response_means_committed
           (scripted Demo.second_time_lucky Demo.table) Demo.environ
           (Demo.request Demo.task_body) 0
           (ok_response (scripted Demo.second_time_lucky Demo.table) (PStr "buy milk")));
    vm_compute; reflexivity.
Defined.

Definition close_fails (n : nat) : fault := FailClose.

Lemma close_failure_commits_three_times_witness :
  (exists e,
     fst (fst (main (scripted close_fails Demo.table) Demo.environ
                    (Demo.request Demo.task_body) 0))
     = Ok (Some (unavailable_response e))) /\
  length (committed (snd (main (scripted close_fails Demo.table) Demo.environ
                               (Demo.request Demo.task_body) 0))) = 3 /\
  Forall (fun x => x = (insert_sql, PStr "buy milk"))
         (executed (snd (main (scripted close_fails Demo.table) Demo.environ
                              (Demo.request Demo.task_body) 0))).
Proof.
  apply (close_failure_commits_three_times
           (scripted close_fails Demo.table) Demo.environ
           (Demo.request Demo.task_body) (PStr "buy milk") Demo.args 0);
    [vm_compute; reflexivity | vm_compute; reflexivity |].
  split; [|split; [|split; [|split]]]; intros; try reflexivity;
    eexists; reflexivity.
Defined.

Lemma non_object_body_raises_witness :
  main (scripted Demo.healthy Demo.table) Demo.environ (Demo.request "5") 0
  = (Raise (AttributeError (PInt 5) "get"), 0, [entry_log]).
Proof.
  apply (non_object_body_raises (scripted Demo.healthy Demo.table) Demo.environ
           (Demo.request "5") (PInt 5) 0); [vm_compute; reflexivity | discriminate].
Defined.

Lemma invalid_json_rejected_witness :
  main (scripted Demo.healthy Demo.table) Demo.environ (Demo.request "{task:") 0
  = (Ok (Some {| body := "Invalid JSON"; status_code := 400 |}), 0, [entry_log]).
Proof.
  apply (invalid_json_rejected (scripted Demo.healthy Demo.table) Demo.environ
           (Demo.request "{task:")
           (Exn "JSONDecodeError" "Expecting value: line 1 column 1 (char 0)") 0).
  vm_compute; reflexivity.
Defined.

Lemma persist_leaks_on_error_witness :
  closes (snd (persist (scripted Demo.execute_fails Demo.table) Demo.args
                       (PStr "buy milk") 0)) = [] \/
  exists e',
    In (EvClose 0 (Some e'))
       (snd (persist (scripted Demo.execute_fails Demo.table) Demo.args
                     (PStr "buy milk") 0)).
Proof.
  apply (persist_leaks_on_error (scripted Demo.execute_fails Demo.table)
           Demo.args (PStr "buy milk") 0 0 1 (db_error "execute" 0) 1);
    vm_compute; reflexivity.
Defined.
End HttpTriggerMore.

Module SqlTriggerMore.
Import SqlTriggerBinding SqlTriggerFacts.

Section Run.
Context {W : Type} (P : platform W).

(** A single record handed over as an object, not inside an array, is
    not logged as a record: the loop runs over the keys of the object,
    and the first key, a [str], has no [get]; the handler logs that error
    and the raw input. *)
Theorem object_batch_is_logged_as_error changes key value rest w :
  json_loads P changes = inr (PDict ((key, value) :: rest)) ->
  main P changes w =
  (Ok tt, w, fired_log :: error_logs (AttributeError (PStr key) "get") changes).
Proof.
  intros Hjson. rewrite consumer_run, Hjson. cbn [truthy py_iter map fst].
  now rewrite (log_changes_not_object P (PStr key) _ (AttributeError (PStr key) "get")).
Qed.
End Run.

Lemma object_batch_is_logged_as_error_witness :
  main (scripted Demo.healthy [(Demo.record_text "7" "buy milk",
                                PDict (Demo.record 7 "buy milk"))])
       (Demo.record_text "7" "buy milk") 0 =
  (Ok tt, 0,
   fired_log :: error_logs (AttributeError (PStr "Id") "get")
                           (Demo.record_text "7" "buy milk")).
Proof.
  apply (object_batch_is_logged_as_error
           (scripted Demo.healthy [(Demo.record_text "7" "buy milk",
                                    PDict (Demo.record 7 "buy milk"))])
           (Demo.record_text "7" "buy milk") "Id" (PInt 7)
           [("Payload", PStr "buy milk"); ("Processed", PBool false)] 0).
  vm_compute; reflexivity.
Defined.
End SqlTriggerMore.

(** ** The connection string *)

Module ConnectionString.
Import HttpTrigger.

(** A character that separates nothing in a connection string. *)
Definition plain (c : ascii) : bool :=
  not_char "," c && not_char ";" c && not_char "=" c.

(** [s] is empty or starts outside the class. *)
Definition stops (cls : ascii -> bool) (s : string) : bool :=
  match s with
  | EmptyString => true
  | String c _ => negb (cls c)
  end.

(** Index of the first [=] of a string. *)
Fixpoint eq_index (s : string) : option nat :=
  match s with
  | EmptyString => None
  | String c s' => if Ascii.eqb c "=" then Some 0 else option_map S (eq_index s')
  end.

(** The connection string with the four settings in the usual order,
    followed by [tail]. *)
Definition format (host port db user pwd tail : string) : string :=
  "Server=tcp:" +:+ host +:+ "," +:+ port +:+ ";Initial Catalog=" +:+ db
  +:+ ";User ID=" +:+ user +:+ ";Password=" +:+ pwd +:+ tail.

Lemma cons_append c (a b : string) : String c a +:+ b = String c (a +:+ b).
Proof. reflexivity. Qed.

Lemma append_assoc (a b c : string) : (a +:+ b) +:+ c = a +:+ (b +:+ c).
Proof.
  induction a as [|x a IH]; [reflexivity|]. now rewrite !cons_append, IH.
Qed.

Lemma all_in_impl (p q : ascii -> bool) s :
  (forall c, p c = true -> q c = true) -> all_in p s = true -> all_in q s = true.
Proof.
  intros Hpq. induction s as [|c s IH]; simpl; [reflexivity|].
  intros [Hc Hs]%andb_prop. now rewrite (Hpq c Hc), IH.
Qed.

Lemma all_in_app p a b :
  all_in p a = true -> all_in p b = true -> all_in p (a +:+ b) = true.
Proof.
  intros Ha Hb. induction a as [|c a IH]; [exact Hb|].
  rewrite cons_append. simpl in *. apply andb_prop in Ha as [Hc Ha].
  now rewrite Hc, IH.
Qed.

Lemma strip_prefix_app p r : strip_prefix p (p +:+ r) = Some r.
Proof.
  induction p as [|c p IH]; [reflexivity|].
  rewrite cons_append. simpl. now rewrite Ascii.eqb_refl.
Qed.

Lemma re_search_cons items c s :
  re_search items (String c s) =
  match re_match items (String c s) with
  | Some groups => Some groups
  | None => re_search items s
  end.
Proof. reflexivity. Qed.

Lemma re_search_here items s m : re_match items s = Some m -> re_search items s = Some m.
Proof. intros H. destruct s; simpl; now rewrite H. Qed.

(** A group takes the whole run of its class when the rest of the
    pattern matches right after it. *)
Lemma re_plus_run cls k t gs : forall g acc,
  g <> EmptyString -> all_in cls g = true -> stops cls t = true -> k t = Some gs ->
  re_plus cls k (g +:+ t) acc = Some ((acc +:+ g) :: gs).
Proof.
  induction g as [|c g IH]; intros acc Hne Hall Hstop Hk; [congruence|].
  rewrite cons_append. simpl in *. apply andb_prop in Hall as [Hc Hg]. rewrite Hc.
  destruct g as [|c' g'].
  - change (EmptyString +:+ t) with t.
    assert (Hnone : forall a, re_plus cls k t a = None).
    { intros a. destruct t as [|x t]; [reflexivity|]. simpl in *.
      now destruct (cls x). }
    now rewrite Hnone, Hk.
  - rewrite (IH (acc +:+ String c EmptyString)) by (try discriminate; assumption).
    now rewrite append_snoc.
Qed.

Lemma strip_prefix_eq_index : forall p s r i,
  strip_prefix p s = Some r -> eq_index p = Some i -> eq_index s = Some i.
Proof.
  induction p as [|a p IH]; intros s r i Hs Hi; [discriminate|].
  destruct s as [|b s]; [discriminate|]. simpl in *.
  destruct (Ascii.eqb a b) eqn:Hab; [|discriminate].
  apply Ascii.eqb_eq in Hab as ->.
  destruct (Ascii.eqb b "="); [assumption|].
  destruct (eq_index p) as [j|]; [|discriminate].
  now rewrite (IH s r j Hs eq_refl).
Qed.

Lemma eq_index_free pre rest :
  all_in (not_char "=") pre = true ->
  eq_index (pre +:+ rest) = option_map (Nat.add (String.length pre)) (eq_index rest).
Proof.
  intros Hfree. induction pre as [|c pre IH].
  - change (EmptyString +:+ rest) with rest. now destruct (eq_index rest).
  - rewrite cons_append. simpl in *. apply andb_prop in Hfree as [Hc Hpre].
    unfold not_char in Hc. apply negb_true_iff in Hc. rewrite Hc, (IH Hpre).
    now destruct (eq_index rest).
Qed.

(** The search for a key ending in [=] passes over text without [=]
    when the next [=] of the text is too far for the key to end there. *)
Lemma re_search_skip K items rest i j : forall pre,
  eq_index K = Some i -> all_in (not_char "=") pre = true ->
  eq_index rest = Some j -> i <= j ->
  re_search (Lit K :: items) (pre +:+ rest) = re_search (Lit K :: items) rest.
Proof.
  intros pre HK. induction pre as [|c pre IH]; intros Hfree Hj Hij; [reflexivity|].
  assert (Hfree' := Hfree). simpl in Hfree'. apply andb_prop in Hfree' as [_ Hpre].
  rewrite cons_append.
  assert (Hno : re_match (Lit K :: items) (String c (pre +:+ rest)) = None).
  { rewrite re_match_lit.
    destruct (strip_prefix K (String c (pre +:+ rest))) as [r|] eqn:Hs; [|reflexivity].
    apply (strip_prefix_eq_index _ _ _ _ Hs) in HK.
    rewrite <- cons_append, (eq_index_free _ _ Hfree), Hj in HK.
    simpl in HK. injection HK as HK. lia. }
  rewrite re_search_cons, Hno. now apply IH.
Qed.

(** The server pattern on a host and a port. *)
Lemma search_server host port rest :
  host <> EmptyString -> all_in (not_char ",") host = true ->
  port <> EmptyString -> all_in is_digit port = true -> stops is_digit rest = true ->
  re_search server_re ("Server=tcp:" +:+ host +:+ "," +:+ port +:+ rest)
  = Some [host; port].
Proof.
  intros Hh Hhost Hp Hport Hrest. apply re_search_here. unfold server_re.
  rewrite re_match_lit, strip_prefix_app, re_match_group.
  rewrite (re_plus_run _ _ _ [port]); [reflexivity|assumption..|reflexivity|].
  rewrite re_match_lit, strip_prefix_app, re_match_group.
  now rewrite (re_plus_run _ _ _ []).
Qed.

(** A [key=value] pattern where the text starts with the key. *)
Lemma match_key K value rest :
  value <> EmptyString -> all_in (not_char ";") value = true ->
  stops (not_char ";") rest = true ->
  re_match [Lit K; GroupPlus (not_char ";")] (K +:+ value +:+ rest) = Some [value].
Proof.
  intros Hne Hval Hrest.
  rewrite re_match_lit, strip_prefix_app, re_match_group.
  now rewrite (re_plus_run _ _ _ []).
Qed.

Lemma eq_index_prefix : forall K x i, eq_index K = Some i -> eq_index (K +:+ x) = Some i.
Proof.
  induction K as [|c K IH]; intros x i Hi; [discriminate|].
  rewrite cons_append. simpl in *. destruct (Ascii.eqb c "="); [assumption|].
  destruct (eq_index K) as [j|]; [|discriminate]. now rewrite (IH x j eq_refl).
Qed.

(** The search for [key=value] finds the setting that follows a [;]
    after text without [=]. *)
Lemma search_key_after K pre value rest i :
  eq_index K = Some i ->
  (forall x, strip_prefix K (String ";" x) = None) ->
  all_in (not_char "=") pre = true ->
  value <> EmptyString -> all_in (not_char ";") value = true ->
  stops (not_char ";") rest = true ->
  re_search [Lit K; GroupPlus (not_char ";")] (pre +:+ ";" +:+ K +:+ value +:+ rest)
  = Some [value].
Proof.
  intros HK Hhead Hpre Hne Hval Hrest.
  rewrite (re_search_skip K _ _ i (S i)); [|assumption..| |lia].
  - change (";" +:+ K +:+ value +:+ rest) with (String ";" (K +:+ value +:+ rest)).
    rewrite re_search_cons, re_match_lit, Hhead.
    apply re_search_here. now apply match_key.
  - change (";" +:+ K +:+ value +:+ rest) with (String ";" (K +:+ value +:+ rest)).
    simpl. now rewrite (eq_index_prefix K _ i HK).
Qed.

Lemma plain_not_comma c : plain c = true -> not_char "," c = true.
Proof. unfold plain. now intros [[H _]%andb_prop _]%andb_prop. Qed.

Lemma plain_not_semicolon c : plain c = true -> not_char ";" c = true.
Proof. unfold plain. now intros [[_ H]%andb_prop _]%andb_prop. Qed.

Lemma plain_not_eq c : plain c = true -> not_char "=" c = true.
Proof. unfold plain. now intros [_ H]%andb_prop. Qed.

Lemma digit_not_eq c : is_digit c = true -> not_char "=" c = true.
Proof.
  unfold is_digit, not_char. intros H.
  destruct (Ascii.eqb c "=") eqn:E; [|reflexivity].
  apply Ascii.eqb_eq in E. subst c. discriminate.
Qed.

Section Fields.
Variables host port db user pwd tail : string.
Hypothesis Hhost : host <> EmptyString /\ all_in plain host = true.
Hypothesis Hport : port <> EmptyString /\ all_in is_digit port = true.
Hypothesis Hdb : db <> EmptyString /\ all_in plain db = true.
Hypothesis Huser : user <> EmptyString /\ all_in plain user = true.
Hypothesis Hpwd : pwd <> EmptyString /\ all_in (not_char ";") pwd = true.
Hypothesis Htail : stops (not_char ";") tail = true.

Lemma host_port_free : all_in (not_char "=") (host +:+ "," +:+ port) = true.
Proof.
  apply all_in_app; [apply (all_in_impl plain); [apply plain_not_eq|apply Hhost]|].
  apply (all_in_app _ ","); [reflexivity|].
  apply (all_in_impl is_digit); [apply digit_not_eq|apply Hport].
Qed.

Lemma format_server :
  re_search server_re (format host port db user pwd tail) = Some [host; port].
Proof.
  unfold format. apply search_server; try apply Hhost; try apply Hport; [|reflexivity].
  apply (all_in_impl plain); [apply plain_not_comma|apply Hhost].
Qed.

Lemma format_db :
  re_search db_re (format host port db user pwd tail) = Some [db].
Proof.
  unfold format, db_re.
  change (re_search ?p ("Server=tcp:" +:+ ?x)) with (re_search p x).
  rewrite <- (append_assoc "," port), <- (append_assoc host).
  apply (search_key_after "Initial Catalog=" _ _ _ 15);
    [reflexivity | reflexivity | apply host_port_free | apply Hdb | | reflexivity].
  apply (all_in_impl plain); [apply plain_not_semicolon|apply Hdb].
Qed.

Lemma format_user :
  re_search user_re (format host port db user pwd tail) = Some [user].
Proof.
  unfold format, user_re.
  change (re_search ?p ("Server=tcp:" +:+ ?x)) with (re_search p x).
  rewrite <- (append_assoc "," port), <- (append_assoc host).
  rewrite (re_search_skip "User ID=" _ _ 7 16);
    [|reflexivity|apply host_port_free|reflexivity|lia].
  change (re_search ?p (";Initial Catalog=" +:+ ?x)) with (re_search p x).
  apply (search_key_after "User ID=" _ _ _ 7);
    [reflexivity | reflexivity | | apply Huser | | reflexivity].
  - apply (all_in_impl plain); [apply plain_not_eq|apply Hdb].
  - apply (all_in_impl plain); [apply plain_not_semicolon|apply Huser].
Qed.

Lemma format_pwd :
  re_search pwd_re (format host port db user pwd tail) = Some [pwd].
Proof.
  unfold format, pwd_re.
  change (re_search ?p ("Server=tcp:" +:+ ?x)) with (re_search p x).
  rewrite <- (append_assoc "," port), <- (append_assoc host).
  rewrite (re_search_skip "Password=" _ _ 8 16);
    [|reflexivity|apply host_port_free|reflexivity|lia].
  change (re_search ?p (";Initial Catalog=" +:+ ?x)) with (re_search p x).
  rewrite (re_search_skip "Password=" _ _ 8 8);
    [|reflexivity| |reflexivity|lia].
  2: { apply (all_in_impl plain); [apply plain_not_eq|apply Hdb]. }
  change (re_search ?p (";User ID=" +:+ ?x)) with (re_search p x).
  apply (search_key_after "Password=" _ _ _ 8);
    [reflexivity | reflexivity | | apply Hpwd | apply Hpwd | exact Htail].
  apply (all_in_impl plain); [apply plain_not_eq|apply Huser].
Qed.

End Fields.


Lemma search_key_group K cs m :
  re_search [Lit K; GroupPlus (not_char ";")] cs = Some m ->
  exists g, m = [g] /\ g <> EmptyString /\ all_in (not_char ";") g = true.
Proof.
  intros H. apply re_search_match in H as [s H]. rewrite re_match_lit in H.
  destruct (strip_prefix K s) as [s1|]; [|discriminate].
  rewrite re_match_group in H.
  apply re_plus_groups in H as (g & gs & s2 & -> & Hne & Hall & H).
  injection H as <-. now exists g.
Qed.

Lemma digits_value_nonneg : forall s acc z,
  digits_value s acc = Some z -> (0 <= acc)%Z -> (0 <= z)%Z.
Proof.
  induction s as [|c s IH]; simpl; intros acc z H Hacc; [now injection H as <-|].
  destruct (is_digit c); [|discriminate]. apply (IH _ _ H). lia.
Qed.

(** Whatever connection string parses, the arguments [main] connects
    with are well formed: a non-empty server without a comma, a
    non-negative port, a non-empty database, user and password without a
    semicolon, and both timeouts of 10. *)
Theorem descriptor_fields cs d :
  descriptor cs = Some d ->
  (arg_server d <> EmptyString /\ all_in (not_char ",") (arg_server d) = true) /\
  (0 <= arg_port d)%Z /\
  (arg_database d <> EmptyString /\ all_in (not_char ";") (arg_database d) = true) /\
  (arg_user d <> EmptyString /\ all_in (not_char ";") (arg_user d) = true) /\
  (arg_password d <> EmptyString /\ all_in (not_char ";") (arg_password d) = true) /\
  arg_timeout d = 10%Z /\ arg_login_timeout d = 10%Z.
Proof.
  unfold descriptor.
  destruct (re_search server_re cs) as [sm|] eqn:Hsm; [|discriminate].
  destruct (re_search db_re cs) as [dm|] eqn:Hdm; [|discriminate].
  destruct (re_search user_re cs) as [um|] eqn:Hum; [|discriminate].
  destruct (re_search pwd_re cs) as [pm|] eqn:Hpm; [|discriminate].
  apply search_key_group in Hdm as (gd & -> & Hd).
  apply search_key_group in Hum as (gu & -> & Hu).
  apply search_key_group in Hpm as (gp & -> & Hp).
  apply re_search_match in Hsm as [s Hsm]. unfold server_re in Hsm.
  rewrite re_match_lit in Hsm.
  destruct (strip_prefix "Server=tcp:" s) as [s1|]; [|discriminate].
  rewrite re_match_group in Hsm.
  apply re_plus_groups in Hsm as (g1 & gs & s2 & -> & Hne1 & Hall1 & Hsm).
  rewrite re_match_lit in Hsm.
  destruct (strip_prefix "," s2) as [s3|]; [|discriminate].
  rewrite re_match_group in Hsm.
  apply re_plus_groups in Hsm as (g2 & gs' & s4 & -> & Hne2 & Hall2 & Hsm).
  injection Hsm as <-. unfold group. simpl nth.
  change (EmptyString +:+ g1) with g1. change (EmptyString +:+ g2) with g2.
  change (EmptyString +:+ gd) with gd. change (EmptyString +:+ gu) with gu.
  change (EmptyString +:+ gp) with gp.
  unfold py_int. destruct g2 as [|c g2]; [congruence|].
  destruct (digits_value (String c g2) 0) as [z|] eqn:Hz; [|discriminate].
  intros [= <-]. simpl.
  repeat split; try tauto. apply (digits_value_nonneg _ _ _ Hz). lia.
Qed.

Lemma descriptor_fields_witness :
  (arg_server Demo.args <> EmptyString /\
   all_in (not_char ",") (arg_server Demo.args) = true) /\
  (0 <= arg_port Demo.args)%Z /\
  (arg_database Demo.args <> EmptyString /\
   all_in (not_char ";") (arg_database Demo.args) = true) /\
  (arg_user Demo.args <> EmptyString /\
   all_in (not_char ";") (arg_user Demo.args) = true) /\
  (arg_password Demo.args <> EmptyString /\
   all_in (not_char ";") (arg_password Demo.args) = true) /\
  arg_timeout Demo.args = 10%Z /\ arg_login_timeout Demo.args = 10%Z.
Proof.
  apply (descriptor_fields Demo.conn_str Demo.args). vm_compute; reflexivity.
Defined.
End ConnectionString.

(** * The load-test client ([test_workflow.py])

    [send_request] posts a task to the HTTP trigger and retries.  What it
    calls is a platform of its own: [requests.post], the clock and
    [time.sleep].  Of the calls inside its [try], only [requests.post]
    raises in the model. *)

Module TestWorkflow.

Definition float_sub (x y : spec_float) : spec_float := SFsub prec emax x y.

(** How a call of [requests.post] ends: a response, a
    [requests.exceptions.Timeout], or another exception. *)
Inductive post_outcome : Type :=
| Responded (status_code : Z) (text : string)
| TimedOut (e : exn)
| Failed (e : exn).

Record client (W : Type) : Type := Client {
  requests_post : string -> pyval -> list (string * string) -> Z -> W -> post_outcome * W;
  time_time : W -> spec_float * W;
  now_isoformat : W -> string * W;
  client_sleep : spec_float -> W -> W
}.
Arguments requests_post {W} _ _ _ _ _ _.
Arguments time_time {W} _ _.
Arguments now_isoformat {W} _ _.
Arguments client_sleep {W} _ _ _.

Inductive client_event : Type :=
| CePost (url : string) (json : pyval) (r : post_outcome)
| CeSleep (secs : spec_float).

(** A computation of the client: its value, the world it leaves, its
    posts and sleeps. *)
Definition C (W : Type) (A : Type) : Type := W -> A * W * list client_event.

#[global] Instance C_ret {W} : MRet (C W) := fun A a w => (a, w, []).

#[global] Instance C_bind {W} : MBind (C W) :=
  fun A B k m w =>
    match m w with
    | (a, w1, evs1) =>
        match k a w1 with
        | (b, w2, evs2) => (b, w2, evs1 ++ evs2)
        end
    end.

Definition BASE_URL : string := "http://localhost:7071/api/HttpTrigger".

Definition as_post (ev : client_event) : option post_outcome :=
  match ev with CePost _ _ r => Some r | _ => None end.

Definition as_client_sleep (ev : client_event) : option spec_float :=
  match ev with CeSleep d => Some d | _ => None end.

Definition posts (evs : list client_event) : list post_outcome := omap as_post evs.

Definition client_sleeps (evs : list client_event) : list spec_float :=
  omap as_client_sleep evs.

Section Client.
Context {W : Type} (K : client W).

Definition post (url : string) (json : pyval) (headers : list (string * string))
    (timeout : Z) : C W post_outcome :=
  fun w => let (r, w') := requests_post K url json headers timeout w in
           (r, w', [CePost url json r]).

Definition clock : C W spec_float :=
  fun w => let (t, w') := time_time K w in (t, w', []).

Definition timestamp : C W string :=
  fun w => let (t, w') := now_isoformat K w in (t, w', []).

Definition sleep (secs : spec_float) : C W unit :=
  fun w => (tt, client_sleep K secs w, [CeSleep secs]).

(** [0.5 * (attempt + 1)]. *)
Definition pause (attempt : nat) : spec_float :=
  float_mul (float_lit 1 (-1)) (float_of_Z (Z.of_nat (attempt + 1))).

(** [(end_time - start_time) * 1000]. *)
Definition duration_ms (start_time end_time : spec_float) : spec_float :=
  float_mul (float_sub end_time start_time) (float_of_Z 1000).

(** [s[:200]]. *)
Definition first_200 (s : string) : string := String.substring 0 200 s.

(** The dict returned for a response. *)
Definition response_result (task_id : pyval) (status_code : Z) (duration : spec_float)
    (text : string) (attempt : nat) (ts : string) : list (string * pyval) :=
  [("task_id", task_id); ("status_code", PInt status_code);
   ("duration_ms", PFloat duration); ("success", PBool (status_code =? 200)%Z);
   ("response", PStr (first_200 text)); ("attempt", PInt (Z.of_nat (attempt + 1)));
   ("timestamp", PStr ts)].

(** The dict returned after an exception on the last attempt. *)
Definition error_result (task_id : pyval) (duration : spec_float) (error : string)
    (attempt : nat) (ts : string) : list (string * pyval) :=
  [("task_id", task_id); ("status_code", PNone); ("duration_ms", PFloat duration);
   ("success", PBool false); ("error", PStr error);
   ("attempt", PInt (Z.of_nat (attempt + 1))); ("timestamp", PStr ts)].

(** Lines 38-101: the [for] loop of [send_request]; [None] when it runs
    out of attempts without returning. *)
Fixpoint send_loop (task_id payload : pyval) (max_retries : nat)
    (start_time : spec_float) (range : list nat) : C W (option (list (string * pyval))) :=
  match range with
  | [] => mret None
  | attempt :: rest =>
      r ← post BASE_URL (PDict [("task", payload)])
             [("Content-Type", "application/json")] 60;
      match r with
      | Responded status_code text =>
          end_time ← clock;
          let duration := duration_ms start_time end_time in
          let success := (status_code =? 200)%Z in
          ts ← timestamp;
          let result := response_result task_id status_code duration text attempt ts in
          if success || ((400 <=? status_code)%Z && (status_code <? 500)%Z) then
            mret (Some result)
          else if (attempt <? max_retries - 1)%nat then
            sleep (pause attempt);;
            send_loop task_id payload max_retries start_time rest
          else mret (Some result)
      | TimedOut _ =>
          if (attempt <? max_retries - 1)%nat then
            sleep (pause attempt);;
            send_loop task_id payload max_retries start_time rest
          else
            end_time ← clock;
            let duration := duration_ms start_time end_time in
            ts ← timestamp;
            mret (Some (error_result task_id duration "Request timeout" attempt ts))
      | Failed e =>
          if (attempt <? max_retries - 1)%nat then
            sleep (pause attempt);;
            send_loop task_id payload max_retries start_time rest
          else
            end_time ← clock;
            let duration := duration_ms start_time end_time in
            ts ← timestamp;
            mret (Some (error_result task_id duration (first_200 (exn_str e)) attempt ts))
      end
  end.

Definition send_request (task_id payload : pyval) (max_retries : nat)
  : C W (option (list (string * pyval))) :=
  start_time ← clock;
  send_loop task_id payload max_retries start_time (seq 0 max_retries).

(** A result as [send_request] builds them: [success] says whether the
    status is 200, a result without a status carries an [error], and the
    text it keeps has at most 200 characters. *)
Definition well_formed_result (r : list (string * pyval)) : Prop :=
  (dict_get r "success" = PBool true <-> dict_get r "status_code" = PInt 200) /\
  (dict_get r "status_code" = PNone ->
     exists e, dict_get r "error" = PStr e /\ String.length e <= 200) /\
  (forall s, dict_get r "status_code" = PInt s ->
     exists t, dict_get r "response" = PStr t /\ String.length t <= 200).

End Client.

(** A client whose posts are answered from a list, in turn, then time
    out; the clock advances by one per reading. *)
Definition canned (answers : list post_outcome) : client (list post_outcome * Z) :=
  {| requests_post := fun _ _ _ _ w =>
       match fst w with
       | [] => (TimedOut (Exn "ReadTimeout" "Read timed out."), w)
       | r :: rest => (r, (rest, snd w))
       end;
     time_time := fun w => (float_of_Z (snd w), (fst w, (snd w + 1)%Z));
     now_isoformat := fun w => ("2025-01-01T00:00:00", w);
     client_sleep := fun _ w => w |}.

End TestWorkflow.

Module TestWorkflowFacts.
Import TestWorkflow.

Lemma posts_app (a b : list client_event) : posts (a ++ b) = posts a ++ posts b.
Proof. apply omap_app. Qed.

Lemma client_sleeps_app (a b : list client_event) :
  client_sleeps (a ++ b) = client_sleeps a ++ client_sleeps b.
Proof. apply omap_app. Qed.

Lemma substring_length : forall m s, String.length (String.substring 0 m s) <= m.
Proof.
  induction m as [|m IH]; intros [|c s]; simpl; try lia.
  specialize (IH s). lia.
Qed.

Section Run.
Context {W : Type} (K : client W).

Lemma response_result_well_formed task_id status duration text attempt ts :
  well_formed_result (response_result task_id status duration text attempt ts).
Proof.
  unfold well_formed_result, response_result. cbn [dict_get String.eqb Ascii.eqb Bool.eqb].
  split; [|split].
  - split.
    + intros [= H]. apply Z.eqb_eq in H. now subst.
    + intros [= ->]. reflexivity.
  - discriminate.
  - intros s _. eexists. split; [reflexivity|]. apply substring_length.
Qed.

Lemma error_result_well_formed task_id duration error attempt ts :
  String.length error <= 200 ->
  well_formed_result (error_result task_id duration error attempt ts).
Proof.
  intros Hlen. unfold well_formed_result, error_result.
  cbn [dict_get String.eqb Ascii.eqb Bool.eqb].
  split; [|split].
  - split; discriminate.
  - intros _. now exists error.
  - discriminate.
Qed.

(** What a run of the loop over the attempts [a, a + 1, ..] up to
    [max_retries - 1] gives. *)
Definition loop_spec (a n : nat) (out : option (list (string * pyval)))
    (evs : list client_event) : Prop :=
  length (posts evs) <= n /\
  client_sleeps evs = map pause (seq a (length (posts evs) - 1)) /\
  match out with
  | None => n = 0
  | Some r =>
      1 <= length (posts evs) /\
      dict_get r "attempt" = PInt (Z.of_nat (a + length (posts evs))) /\
      well_formed_result r
  end.

Lemma loop_spec_retry a n url json r out evs :
  loop_spec (S a) n out evs -> 0 < n ->
  loop_spec a (S n) out (CePost url json r :: CeSleep (pause a) :: evs).
Proof.
  intros (Hlen & Hsl & Hout) Hn. unfold loop_spec.
  change (posts (CePost url json r :: CeSleep (pause a) :: evs)) with (r :: posts evs).
  change (client_sleeps (CePost url json r :: CeSleep (pause a) :: evs))
    with (pause a :: client_sleeps evs).
  cbn [length]. rewrite Hsl.
  destruct out as [res|]; [|lia].
  destruct Hout as (H1 & Hatt & Hwf).
  split; [lia|]. split.
  - destruct (length (posts evs)) as [|m]; [lia|]. simpl. now rewrite Nat.sub_0_r.
  - split; [lia|]. split; [|assumption].
    rewrite Hatt. do 2 f_equal. lia.
Qed.

Lemma loop_spec_last a n url json r res :
  dict_get res "attempt" = PInt (Z.of_nat (a + 1)) -> well_formed_result res ->
  loop_spec a (S n) (Some res) [CePost url json r].
Proof.
  intros Hatt Hwf. unfold loop_spec.
  change (posts [CePost url json r]) with [r].
  change (client_sleeps [CePost url json r]) with (@nil spec_float).
  cbn [length].
  split; [lia|]. split; [reflexivity|]. split; [lia|]. split; assumption.
Qed.

Lemma send_loop_spec task_id payload max_retries start_time : forall n a w out w' evs,
  a + n = max_retries ->
  send_loop K task_id payload max_retries start_time (seq a n) w = (out, w', evs) ->
  loop_spec a n out evs.
Proof.
  induction n as [|n IH]; intros a w out w' evs Han H.
  - injection H as <- _ <-. unfold loop_spec. simpl. auto.
  - cbn [seq send_loop] in H. unfold mbind at 1 in H. unfold C_bind at 1 in H.
    unfold post at 1 in H.
    destruct (requests_post K BASE_URL (PDict [("task", payload)])
                [("Content-Type", "application/json")] 60 w) as [r w1].
    assert (Hlt : (a <? max_retries - 1)%nat = negb (n =? 0)%nat).
    { destruct n; simpl; [apply Nat.ltb_ge|apply Nat.ltb_lt]; lia. }
    assert (Hrec := fun w0 o w2 e => IH (S a) w0 o w2 e ltac:(lia)).
    destruct r as [status text|e|e].
    + unfold mbind, C_bind, clock, timestamp, mret, C_ret in H.
      destruct (time_time K w1) as [t w2]. destruct (now_isoformat K w2) as [ts w3].
      destruct ((status =? 200)%Z || (400 <=? status)%Z && (status <? 500)%Z).
      * injection H as <- _ <-.
        apply loop_spec_last; [reflexivity|apply response_result_well_formed].
      * rewrite Hlt in H. destruct n as [|n]; cbn [Nat.eqb negb] in H.
        -- injection H as <- _ <-.
           apply loop_spec_last; [reflexivity|apply response_result_well_formed].
        -- unfold sleep at 1 in H.
           destruct (send_loop K task_id payload max_retries start_time
                       (seq (S a) (S n)) (client_sleep K (pause a) w3))
             as [[out' w4] evs'] eqn:Hloop.
           injection H as <- _ <-.
           apply loop_spec_retry; [exact (Hrec _ _ _ _ Hloop)|lia].
    + rewrite Hlt in H. destruct n as [|n]; cbn [Nat.eqb negb] in H.
      * unfold mbind, C_bind, clock, timestamp, mret, C_ret in H.
        destruct (time_time K w1) as [t w2]. destruct (now_isoformat K w2) as [ts w3].
        injection H as <- _ <-.
        apply loop_spec_last; [reflexivity|].
        apply error_result_well_formed. simpl. lia.
      * unfold mbind, C_bind, sleep in H.
        destruct (send_loop K task_id payload max_retries start_time
                    (seq (S a) (S n)) (client_sleep K (pause a) w1))
          as [[out' w4] evs'] eqn:Hloop.
        injection H as <- _ <-.
        apply loop_spec_retry; [exact (Hrec _ _ _ _ Hloop)|lia].
    + rewrite Hlt in H. destruct n as [|n]; cbn [Nat.eqb negb] in H.
      * unfold mbind, C_bind, clock, timestamp, mret, C_ret in H.
        destruct (time_time K w1) as [t w2]. destruct (now_isoformat K w2) as [ts w3].
        injection H as <- _ <-.
        apply loop_spec_last; [reflexivity|].
        apply error_result_well_formed. apply substring_length.
      * unfold mbind, C_bind, sleep in H.
        destruct (send_loop K task_id payload max_retries start_time
                    (seq (S a) (S n)) (client_sleep K (pause a) w1))
          as [[out' w4] evs'] eqn:Hloop.
        injection H as <- _ <-.
        apply loop_spec_retry; [exact (Hrec _ _ _ _ Hloop)|lia].
Qed.

Lemma send_request_run task_id payload max_retries w :
  send_request K task_id payload max_retries w =
  send_loop K task_id payload max_retries (fst (time_time K w)) (seq 0 max_retries)
            (snd (time_time K w)).
Proof.
  unfold send_request, mbind, C_bind, clock.
  destruct (time_time K w) as [t w0]. cbn [fst snd].
  now destruct (send_loop K task_id payload max_retries t (seq 0 max_retries) w0)
    as [[out w1] evs].
Qed.


(** Every result [send_request] returns is well formed, and its
    [attempt] field is the number of posts the call made. *)
Theorem send_request_result task_id payload max_retries w r :
  fst (fst (send_request K task_id payload max_retries w)) = Some r ->
  well_formed_result r /\
  dict_get r "attempt"
  = PInt (Z.of_nat (length (posts (snd (send_request K task_id payload max_retries w))))).
Proof.
  rewrite send_request_run.
  destruct (send_loop K task_id payload max_retries (fst (time_time K w))
              (seq 0 max_retries) (snd (time_time K w))) as [[out w1] evs] eqn:H.
  apply send_loop_spec in H as (Hlen & Hsl & Hout); [|reflexivity].
  cbn [fst snd]. intros ->. now destruct Hout as (_ & Hatt & Hwf).
Qed.

Lemma send_loop_final task_id payload m start w0 status text :
  fst (requests_post K BASE_URL (PDict [("task", payload)])
         [("Content-Type", "application/json")] 60 w0) = Responded status text ->
  (status = 200 \/ 400 <= status < 500)%Z ->
  exists t ts w3,
    send_loop K task_id payload (S m) start (seq 0 (S m)) w0 =
    (Some (response_result task_id status (duration_ms start t) text 0 ts), w3,
     [CePost BASE_URL (PDict [("task", payload)]) (Responded status text)]).
Proof.
  intros Hpost Hstatus.
  cbn [seq send_loop]. unfold mbind at 1. unfold C_bind at 1. unfold post at 1.
  destruct (requests_post K BASE_URL (PDict [("task", payload)])
              [("Content-Type", "application/json")] 60 w0)
    as [r w1]. cbn [fst] in Hpost. subst r.
  unfold mbind, C_bind, clock, timestamp, mret, C_ret.
  destruct (time_time K w1) as [t w2]. destruct (now_isoformat K w2) as [ts w3].
  assert (Hfinal : (status =? 200)%Z || (400 <=? status)%Z && (status <? 500)%Z = true).
  { destruct Hstatus as [-> | [Hlo Hhi]]; [reflexivity|].
    apply orb_true_iff. right. apply andb_true_iff. split; lia. }
  rewrite Hfinal. now exists t, ts, w3.
Qed.

(** A loop with an attempt left starts with a post. *)
Lemma send_loop_first_post task_id payload max_retries start a n w out w' evs :
  send_loop K task_id payload max_retries start (seq a (S n)) w = (out, w', evs) ->
  exists r rest, evs = CePost BASE_URL (PDict [("task", payload)]) r :: rest.
Proof.
  change (seq a (S n)) with (a :: seq (S a) n). cbn [send_loop].
  match goal with |- context [mbind ?k (post _ _ _ _ _)] => set (cont := k) end.
  unfold mbind, C_bind, post.
  destruct (requests_post K BASE_URL (PDict [("task", payload)])
              [("Content-Type", "application/json")] 60 w) as [r w1].
  destruct (cont r w1) as [[b w2] evs2].
  intros [= _ _ <-]. now exists r, evs2.
Qed.

Lemma send_loop_retried task_id payload m start w0 status text :
  fst (requests_post K BASE_URL (PDict [("task", payload)])
         [("Content-Type", "application/json")] 60 w0) = Responded status text ->
  status <> 200%Z -> ~ (400 <= status < 500)%Z ->
  exists out w5 r rest,
    send_loop K task_id payload (S (S m)) start (seq 0 (S (S m))) w0 =
    (out, w5,
     CePost BASE_URL (PDict [("task", payload)]) (Responded status text)
     :: CeSleep (pause 0) :: CePost BASE_URL (PDict [("task", payload)]) r :: rest).
Proof.
  intros Hpost Hnot200 Hnot4xx.
  change (seq 0 (S (S m))) with (0 :: seq 1 (S m)). cbn [send_loop].
  unfold mbind at 1. unfold C_bind at 1. unfold post at 1.
  destruct (requests_post K BASE_URL (PDict [("task", payload)])
              [("Content-Type", "application/json")] 60 w0)
    as [r w1]. cbn [fst] in Hpost. subst r.
  unfold mbind at 1. unfold C_bind at 1. unfold clock at 1.
  destruct (time_time K w1) as [t w2].
  unfold mbind at 1. unfold C_bind at 1. unfold timestamp at 1.
  destruct (now_isoformat K w2) as [ts w3].
  assert (Hretry : (status =? 200)%Z || (400 <=? status)%Z && (status <? 500)%Z = false).
  { apply orb_false_iff. split; [now apply Z.eqb_neq|].
    apply andb_false_iff. destruct (Z.leb_spec 400 status); [right|now left].
    apply Z.ltb_ge. lia. }
  rewrite Hretry. cbn [Nat.ltb Nat.leb Nat.sub].
  unfold mbind at 1. unfold C_bind at 1. unfold sleep at 1.
  destruct (send_loop K task_id payload (S (S m)) start (seq 1 (S m))
              (client_sleep K (pause 0) w3)) as [[out w5] evs] eqn:Hrest.
  apply send_loop_first_post in Hrest as (r2 & rest & ->).
  now exists out, w5, r2, rest.
Qed.

(** A first response with status 200 or 4xx ends the call: one post,
    no sleep, and the result reports that status, whether it is 200, and
    the first 200 characters of the body. *)
Theorem final_status_is_not_retried task_id payload max_retries w status text :
  0 < max_retries ->
  fst (requests_post K BASE_URL (PDict [("task", payload)])
         [("Content-Type", "application/json")] 60 (snd (time_time K w)))
  = Responded status text ->
  (status = 200 \/ 400 <= status < 500)%Z ->
  exists r,
    fst (fst (send_request K task_id payload max_retries w)) = Some r /\
    snd (send_request K task_id payload max_retries w)
    = [CePost BASE_URL (PDict [("task", payload)]) (Responded status text)] /\
    dict_get r "status_code" = PInt status /\
    dict_get r "success" = PBool (status =? 200)%Z /\
    dict_get r "response" = PStr (first_200 text).
Proof.
  intros Hpos Hpost Hstatus. rewrite send_request_run.
  destruct max_retries as [|m]; [lia|].
  destruct (send_loop_final task_id payload m (fst (time_time K w)) _ _ _ Hpost Hstatus)
    as (t & ts & w3 & ->).
  cbn [fst snd]. eexists. split; [reflexivity|]. split; [reflexivity|].
  split; [reflexivity|]. split; reflexivity.
Qed.

End Run.

(** A server that answers 503, then 200; the clock starts at 10. *)
Definition busy_then_ok : list post_outcome :=
  [Responded 503 "Database connection failed after 3 attempts: busy";
   Responded 200 "Task added: x"].

Definition bad_request : list post_outcome := [Responded 400 "Missing 'task'"].

Lemma send_request_result_witness :
  well_formed_result
    (response_result (PInt 1) 200 (duration_ms (float_of_Z 10) (float_of_Z 12))
                     "Task added: x" 1 "2025-01-01T00:00:00") /\
  dict_get (response_result (PInt 1) 200 (duration_ms (float_of_Z 10) (float_of_Z 12))
                            "Task added: x" 1 "2025-01-01T00:00:00") "attempt"
  = PInt (Z.of_nat (length (posts (snd (send_request (canned busy_then_ok) (PInt 1)
                                                     (PStr "x") 2 (busy_then_ok, 10%Z)))))).
Proof.
  apply (send_request_result (canned busy_then_ok) (PInt 1) (PStr "x") 2
           (busy_then_ok, 10%Z)).
  vm_compute; reflexivity.
Defined.

Lemma final_status_is_not_retried_witness :
  exists r,
    fst (fst (send_request (canned bad_request) (PInt 1) (PStr "") 2 (bad_request, 10%Z)))
    = Some r /\
    snd (send_request (canned bad_request) (PInt 1) (PStr "") 2 (bad_request, 10%Z))
    = [CePost BASE_URL (PDict [("task", PStr "")]) (Responded 400 "Missing 'task'")] /\
    dict_get r "status_code" = PInt 400 /\
    dict_get r "success" = PBool (400 =? 200)%Z /\
    dict_get r "response" = PStr (first_200 "Missing 'task'").
Proof.
  apply (final_status_is_not_retried (canned bad_request) (PInt 1) (PStr "") 2
           (bad_request, 10%Z) 400 "Missing 'task'");
    [lia | vm_compute; reflexivity | right; lia].
Defined.

End TestWorkflowFacts.
